(** * OCR Web Application: the React client and the extraction pipeline

    A shallow embedding of the client components of the repository
    ([App.jsx], [UploadArea.jsx], [ResultsPanel.jsx]) and of the extraction
    pipeline the specification describes, with the properties proved about
    them.

    Conventions.  A component's [useState] cells are the fields of a record;
    an event handler is a function from the record to the record.  A JavaScript
    value that may be [null] or [undefined] is an [option]; the truthiness test
    of [if (x)], [x && y] and [x || y] is written out.  A number decoded from
    the JSON body of a response is a [jsnum]. *)

From Stdlib Require Import ZArith QArith Qround Lqa Lia.
From Stdlib Require Import Bool List String Ascii DecimalString.
Import ListNotations.

Open Scope string_scope.

(** ** JavaScript values *)

Module JS.

(** Numbers as the client receives them: [JSON.parse] yields a finite number
    for a numeric literal, or an infinity when the literal overflows.  A JSON
    document has no literal for NaN. *)
Inductive jsnum : Type :=
| Fin (q : Q)
| PosInf
| NegInf.

(** [a >= k] for a finite constant [k]. *)
Definition ge (a : jsnum) (k : Q) : bool :=
  match a with
  | Fin q => Qle_bool k q
  | PosInf => true
  | NegInf => false
  end.

(** The order of the extended rationals against a finite bound, as
    propositions. *)
Definition Ge (a : jsnum) (k : Q) : Prop :=
  match a with
  | Fin q => (k <= q)%Q
  | PosInf => True
  | NegInf => False
  end.

Definition Lt (a : jsnum) (k : Q) : Prop :=
  match a with
  | Fin q => (q < k)%Q
  | PosInf => False
  | NegInf => True
  end.

(** Truthiness of a string-or-nullish value: [null], [undefined] and the
    empty string are falsy. *)
Definition truthy (v : option string) : bool :=
  match v with
  | Some s => negb (String.eqb s "")
  | None => false
  end.

(** [a || b] on such values. *)
Definition or (a b : option string) : option string :=
  if truthy a then a else b.

(** Template-literal rendering of an integral number of moderate size (below
    1e21 in magnitude, which every clock value is): plain decimal digits with
    a leading minus sign for a negative one. *)
Definition toString (n : Z) : string :=
  NilEmpty.string_of_int (Z.to_int n).

(** [s.startsWith(p)] *)
Definition startsWith (p s : string) : bool := String.prefix p s.

End JS.

(** ** Strings *)

Fixpoint string_forall (p : ascii -> bool) (s : string) : bool :=
  match s with
  | EmptyString => true
  | String c s' => p c && string_forall p s'
  end.

(** Does the name hold two dots in a row (a parent-directory segment)? *)
Fixpoint has_dotdot (s : string) : bool :=
  match s with
  | EmptyString => false
  | String c s' =>
      match s' with
      | String c' _ => (Ascii.eqb c "." && Ascii.eqb c' ".") || has_dotdot s'
      | EmptyString => false
      end
  end.

Definition is_digit (c : ascii) : bool :=
  let n := nat_of_ascii c in (48 <=? n)%nat && (n <=? 57)%nat.

(** A character that may not appear in a file name: a path separator of
    either flavour or the null byte. *)
Definition is_path_char (c : ascii) : bool :=
  Ascii.eqb c "/" || Ascii.eqb c "\" || Ascii.eqb c "000".

Definition is_dot (c : ascii) : bool := Ascii.eqb c ".".

Definition is_sign_or_digit (c : ascii) : bool := is_digit c || Ascii.eqb c "-".

(** ** ResultsPanel.jsx *)

Module ResultsPanel.

(** The [result] prop: the [data] object of a successful response.
    [page_count] is read under a guard, so it may be absent. *)
Record Result : Type := mkResult {
  text : string;
  confidence : JS.jsnum;
  word_count : nat;
  page_count : option nat;
  language : string;
  original_filename : string
}.

(** What [handleDownload] hands to the browser: the blob's contents and the
    [download] attribute of the anchor it clicks. *)
Record Download : Type := mkDownload {
  blob : string;
  download : string
}.

(** [handleDownload], with the value [Date.now()] returned at the call. *)
Definition handleDownload (result : Result) (now : Z) : Download :=
  {| blob := text result;
     download := "extracted-text-" ++ JS.toString now ++ ".txt" |}.

Definition getConfidenceColor (confidence : JS.jsnum) : string :=
  if JS.ge confidence 80 then "text-green-600 bg-green-50"
  else if JS.ge confidence 60 then "text-yellow-600 bg-yellow-50"
  else "text-orange-600 bg-orange-50".

Definition getConfidenceLabel (confidence : JS.jsnum) : string :=
  if JS.ge confidence 80 then "High Confidence"
  else if JS.ge confidence 60 then "Medium Confidence"
  else "Low Confidence".

End ResultsPanel.

(** ** UploadArea.jsx *)

Module UploadArea.

(** A browser [File]: its name, its size in bytes and its MIME type. *)
Record File : Type := mkFile {
  name : string;
  size : Z;
  type : string
}.

(** The two [useState] cells of the component. *)
Record State : Type := mkState {
  preview : option string;
  selectedFile : option File
}.

Definition initial : State := {| preview := None; selectedFile := None |}.

(** The options handed to [useDropzone]. *)
Definition accept : list (string * list string) :=
  [ ("image/png", [".png"]);
    ("image/jpeg", [".jpg"; ".jpeg"]);
    ("application/pdf", [".pdf"]) ].

Definition maxSize : Z := 10485760.

Definition multiple : bool := false.

Definition disabled (isProcessing : bool) : bool := isProcessing.

(** [onDrop]: the first accepted file becomes the selection.  For an image a
    [FileReader] is started, and the preview is set when it has loaded
    ([reader_onload]); the second component is the file being read.  For any
    other file the preview is cleared. *)
Definition onDrop (acceptedFiles : list File) (st : State)
  : State * option File :=
  match acceptedFiles with
  | file :: _ =>
      if JS.startsWith "image/" (type file)
      then ({| preview := preview st; selectedFile := Some file |}, Some file)
      else ({| preview := None; selectedFile := Some file |}, None)
  | [] => (st, None)
  end.

Definition reader_onload (result : string) (st : State) : State :=
  {| preview := Some result; selectedFile := selectedFile st |}.

(** [handleUpload]: the arguments of the calls it makes to [onFileSelect],
    each the value of [selectedFile] at the call. *)
Definition handleUpload (st : State) : list (option File) :=
  match selectedFile st with
  | Some _ => [selectedFile st]
  | None => []
  end.

Definition handleClear (st : State) : State :=
  {| preview := None; selectedFile := None |}.

(** Is the "Extract Text" button part of the rendered output? *)
Definition extract_button_rendered (st : State) (isProcessing : bool) : bool :=
  match selectedFile st with
  | Some _ => negb isProcessing
  | None => false
  end.

(** The clear buttons live in the branch rendered for a selected file. *)
Definition clear_button_rendered (st : State) : bool :=
  match selectedFile st with
  | Some _ => true
  | None => false
  end.

End UploadArea.

(** ** App.jsx *)

Module App.

Import ResultsPanel.

Record State : Type := mkState {
  isProcessing : bool;
  result : option Result;
  error : option string
}.

Definition initial : State :=
  {| isProcessing := false; result := None; error := None |}.

Definition setIsProcessing (b : bool) (st : State) : State :=
  {| isProcessing := b; result := result st; error := error st |}.

Definition setResult (r : option Result) (st : State) : State :=
  {| isProcessing := isProcessing st; result := r; error := error st |}.

Definition setError (e : option string) (st : State) : State :=
  {| isProcessing := isProcessing st; result := result st; error := e |}.

(** The body of a response, [response.data]. *)
Record Body : Type := mkBody {
  success : bool;
  data : option Result;
  body_error : option string
}.

(** What the [catch] clause reads of the value thrown:
    [err.response?.data?.error] and [err.message]. *)
Record Thrown : Type := mkThrown {
  response_error : option string;
  message : option string
}.

(** How the awaited [axios.post] ends: fulfilled with a response, or rejected.
    The body of a response is what its JSON text decodes to: an object, read
    through its fields (an empty body, which axios leaves as the empty string,
    reads like an object with none of them: no success, no data, no error), or
    [null] for the JSON text null, which is [None] here. *)
Inductive Outcome : Type :=
| Fulfilled (body : option Body)
| Rejected (err : Thrown).

(** Reading [response.data.success] of a response whose body is [null] throws
    a [TypeError] inside the [try] block. *)
Definition type_error : Thrown :=
  {| response_error := None;
     message := Some "Cannot read properties of null (reading 'success')" |}.

(** The part of [handleFileSelect] that runs before the request is awaited. *)
Definition handleFileSelect_begin (st : State) : State :=
  setResult None (setError None (setIsProcessing true st)).

Definition catch_clause (err : Thrown) (st : State) : State :=
  setError
    (JS.or (JS.or (response_error err) (message err))
           (Some "An error occurred while processing your file"))
    st.

(** The part that runs once the request has ended: the rest of the [try]
    block, the [catch] clause when something was thrown, and [finally]. *)
Definition handleFileSelect_end (o : Outcome) (st : State) : State :=
  let st' :=
    match o with
    | Fulfilled (Some body) =>
        if success body
        then setResult (data body) st
        else setError (JS.or (body_error body) (Some "Failed to process file")) st
    | Fulfilled None => catch_clause type_error st
    | Rejected err => catch_clause err st
    end in
  setIsProcessing false st'.

(** One call of [handleFileSelect] with nothing else in between. *)
Definition handleFileSelect (o : Outcome) (st : State) : State :=
  handleFileSelect_end o (handleFileSelect_begin st).

Definition handleReset (st : State) : State :=
  setError None (setResult None st).

(** What [App] renders, by its guards. *)
Definition renders_upload_area (st : State) : bool :=
  match result st with
  | Some _ => false
  | None => negb (isProcessing st)
  end.

Definition renders_error (st : State) : bool := JS.truthy (error st).

Definition renders_spinner (st : State) : bool := isProcessing st.

Definition renders_results (st : State) : bool :=
  match result st with
  | Some _ => negb (isProcessing st)
  | None => false
  end.

End App.

(** ** The page: [App] with the [UploadArea] it mounts

    [App] renders [UploadArea] only while there is no result and nothing is
    being processed, and passes [handleFileSelect] as its [onFileSelect].  The
    page's state is the state of both components together with the requests
    that have been sent: those still awaited and all of them in order of
    sending.  An event is what the user or the network can do to the page; it
    is refused ([None]) when the control it needs is not rendered. *)

Module Page.

Record State : Type := mkState {
  app : App.State;
  upload : UploadArea.State;
  awaited : list (option UploadArea.File);
  sent : list (option UploadArea.File)
}.

Definition initial : State :=
  {| app := App.initial; upload := UploadArea.initial; awaited := []; sent := [] |}.

Inductive Event : Type :=
| Drop (acceptedFiles : list UploadArea.File)
| ReaderLoaded (dataURL : string)
| ClickClear
| ClickExtract
| RequestEnds (o : App.Outcome)
| ClickReset.

(** [UploadArea] keeps its cells while it stays mounted and starts from
    [UploadArea.initial] when it is mounted again. *)
Definition remount (before after : App.State) (u : UploadArea.State)
  : UploadArea.State :=
  if App.renders_upload_area before && App.renders_upload_area after
  then u else UploadArea.initial.

(** [onFileSelect(file)] for each call [handleUpload] makes: [handleFileSelect]
    runs up to its [await], and the request it posts carries [file]. *)
Fixpoint onFileSelect (calls : list (option UploadArea.File)) (s : State) : State :=
  match calls with
  | [] => s
  | file :: calls' =>
      onFileSelect calls'
        {| app := App.handleFileSelect_begin (app s);
           upload := upload s;
           awaited := awaited s ++ [file];
           sent := sent s ++ [file] |}
  end.

Definition with_app (a : App.State) (s : State) : State :=
  {| app := a; upload := remount (app s) a (upload s);
     awaited := awaited s; sent := sent s |}.

Definition with_upload (u : UploadArea.State) (s : State) : State :=
  {| app := app s; upload := u; awaited := awaited s; sent := sent s |}.

Definition fire (e : Event) (s : State) : option State :=
  match e with
  | Drop acceptedFiles =>
      if App.renders_upload_area (app s)
         && negb (UploadArea.disabled (App.isProcessing (app s)))
      then Some (with_upload (fst (UploadArea.onDrop acceptedFiles (upload s))) s)
      else None
  | ReaderLoaded dataURL =>
      if App.renders_upload_area (app s)
      then Some (with_upload (UploadArea.reader_onload dataURL (upload s)) s)
      else None
  | ClickClear =>
      if App.renders_upload_area (app s)
         && UploadArea.clear_button_rendered (upload s)
      then Some (with_upload (UploadArea.handleClear (upload s)) s)
      else None
  | ClickExtract =>
      if App.renders_upload_area (app s)
         && UploadArea.extract_button_rendered (upload s) (App.isProcessing (app s))
      then let s' := onFileSelect (UploadArea.handleUpload (upload s)) s in
           Some {| app := app s';
                   upload := remount (app s) (app s') (upload s);
                   awaited := awaited s'; sent := sent s' |}
      else None
  | RequestEnds o =>
      match awaited s with
      | _ :: rest =>
          Some {| app := App.handleFileSelect_end o (app s);
                  upload := remount (app s) (App.handleFileSelect_end o (app s)) (upload s);
                  awaited := rest; sent := sent s |}
      | [] => None
      end
  | ClickReset =>
      if App.renders_error (app s) || App.renders_results (app s)
      then Some (with_app (App.handleReset (app s)) s)
      else None
  end.

(** The page after a sequence of events, when each was possible in turn. *)
Fixpoint run (events : list Event) (s : State) : option State :=
  match events with
  | [] => Some s
  | e :: events' =>
      match fire e s with
      | Some s' => run events' s'
      | None => None
      end
  end.

End Page.

(** What holds of the page whatever has happened on it. *)
Record page_invariant (s : Page.State) : Prop := {
  inv_busy :
    App.isProcessing (Page.app s) = true ->
    App.result (Page.app s) = None /\ App.error (Page.app s) = None /\
    exists file, Page.awaited s = [file];
  inv_idle : App.isProcessing (Page.app s) = false -> Page.awaited s = [];
  inv_exclusive : App.result (Page.app s) = None \/ App.error (Page.app s) = None;
  inv_sent : Forall (fun file => file <> None) (Page.sent s)
}.

(** ** The extraction pipeline

    The server side of the application ([validators.py], [ocr_processor.py],
    [main.py]) is known from the specification, sections 3, 4, 6 and 7, and
    from the repository's [.env] listing, which gives its configuration. *)

Module Pipeline.

(** Modelled from the spec: the error codes of the server, which are not
    among the sources; section 7 lists them. *)
Inductive Error : Type :=
| UnsupportedType
| FileTooLarge
| CorruptOrSpoofedFile
| CorruptDocument
| RecognitionEngineError
| RecognitionTimeout
| InternalPipelineError.

(** Modelled from the spec: the file-upload part of [config.py], which is
    not among the sources; section 6 names the settings. *)
Record Config : Type := mkConfig {
  MAX_FILE_SIZE : Z;
  ALLOWED_EXTENSIONS : list string
}.

(** The values of the repository's configuration listing; the client's
    dropzone is set up with the same limit and the same extensions. *)
Definition default_config : Config :=
  {| MAX_FILE_SIZE := 10485760;
     ALLOWED_EXTENSIONS := [".png"; ".jpg"; ".jpeg"; ".pdf"] |}.

Definition lower (c : ascii) : ascii :=
  let n := nat_of_ascii c in
  if (65 <=? n)%nat && (n <=? 90)%nat then ascii_of_nat (n + 32) else c.

Fixpoint lowercase (s : string) : string :=
  match s with
  | EmptyString => EmptyString
  | String c s' => String (lower c) (lowercase s')
  end.

(** Modelled from the spec: the extension test of [validators.py], which is
    not among the sources.  "The file extension" of a declared filename is
    taken as the part from its last dot on, the dot included, and is empty
    when the name has no dot; it is compared in lower case. *)
Fixpoint extension (filename : string) : string :=
  match filename with
  | EmptyString => EmptyString
  | String c rest =>
      match extension rest with
      | EmptyString => if Ascii.eqb c "." then filename else EmptyString
      | e => e
      end
  end.

Definition allowed_extension (cfg : Config) (filename : string) : bool :=
  existsb (String.eqb (lowercase (extension filename))) (ALLOWED_EXTENSIONS cfg).

Record ValidatedDocument : Type := mkValidated {
  doc_bytes : list Byte.byte;
  doc_filename : string;
  doc_size : Z
}.

(** Modelled from the spec: the records of [ocr_processor.py], which is not
    among the sources; section 3 describes them.  In a token, [None] is the
    engine's "no confidence reported", carried as an explicit absent value. *)
Record WordToken : Type := mkToken {
  token_text : string;
  token_confidence : option Q
}.

Record ExtractionResult : Type := mkExtraction {
  text : string;
  confidence : Q;
  word_count : nat;
  page_count : nat;
  language : string;
  original_filename : string
}.

(** A reported confidence is a percentage. *)
Definition valid_confidence (c : Q) : Prop := (0 <= c <= 100)%Q.

Definition well_formed (t : WordToken) : Prop :=
  match token_confidence t with
  | Some c => valid_confidence c
  | None => True
  end.

Definition nonempty (t : WordToken) : bool :=
  negb (String.eqb (token_text t) "").

Definition word_separator : string := " ".

(** The page-break marker: a single blank line. *)
Definition page_break : string := String "010" (String "010" EmptyString).

(** Modelled from the spec: the text of one page in [ocr_processor.py], which
    is not among the sources: its tokens in the engine's order; a page that
    failed recognition contributes no text. *)
Definition page_text (page : option (list WordToken)) : string :=
  match page with
  | Some tokens => String.concat word_separator (map token_text tokens)
  | None => EmptyString
  end.

(** The confidences the tokens of a page carry. *)
Fixpoint reported (tokens : list WordToken) : list Q :=
  match tokens with
  | [] => []
  | t :: tokens' =>
      match token_confidence t with
      | Some c => c :: reported tokens'
      | None => reported tokens'
      end
  end.

Definition page_tokens (page : option (list WordToken)) : list WordToken :=
  match page with
  | Some tokens => tokens
  | None => []
  end.

Definition Qsum (l : list Q) : Q := fold_right Qplus 0%Q l.

Definition mean (l : list Q) : Q := (Qsum l / inject_Z (Z.of_nat (List.length l)))%Q.

(** Modelled from the spec: rounding to one decimal place, as the nearest
    tenth, a tie going up (section 4.5 does not say which way a tie goes). *)
Definition round1 (q : Q) : Q := Qmake (Qfloor (q * 10 + (1 # 2))%Q) 10.

(** Modelled from the spec: the confidence of a result in [ocr_processor.py],
    which is not among the sources; section 4.5: the mean of the reported
    confidences, rounded, and 0 when no token reported one. *)
Definition aggregate_confidence (scores : list Q) : Q :=
  match scores with
  | [] => 0%Q
  | _ => round1 (mean scores)
  end.

(** Modelled from the spec: [aggregate] of [ocr_processor.py], which is not
    among the sources; section 4.5.  A page that failed recognition is
    [None]. *)
Definition aggregate (pages : list (option (list WordToken)))
    (filename lang : string) : ExtractionResult :=
  {| text := String.concat page_break (map page_text pages);
     confidence := aggregate_confidence (flat_map (fun p => reported (page_tokens p)) pages);
     word_count := List.length (flat_map (fun p => filter nonempty (page_tokens p)) pages);
     page_count := List.length pages;
     language := lang;
     original_filename := filename |}.

Definition failed {A : Type} (page : option A) : bool :=
  match page with
  | Some _ => false
  | None => true
  end.

Section Stages.

(** The stages whose insides the properties below do not depend on: the
    signature sniffer, the rasteriser, the pixel pipeline and the recognition
    engine (a capability: [None] is a crash, a timeout or malformed output). *)
Variable PageImage : Type.
Variable supported_signature : list Byte.byte -> bool.
Variable extract : ValidatedDocument -> Error + list PageImage.
Variable preprocess : PageImage -> PageImage.
Variable engine : PageImage -> string -> option (list WordToken).

(** Modelled from the spec: [validate] of [validators.py], which is not among
    the sources; section 4.1: its three rejections, in the order the contract
    lists them. *)
Definition validate (cfg : Config) (bytes : list Byte.byte)
    (declared_filename : string) (declared_size : Z)
  : Error + ValidatedDocument :=
  if (MAX_FILE_SIZE cfg <? declared_size)%Z then inl FileTooLarge
  else if negb (allowed_extension cfg declared_filename) then inl UnsupportedType
  else if negb (supported_signature bytes) then inl CorruptOrSpoofedFile
  else inr {| doc_bytes := bytes;
              doc_filename := declared_filename;
              doc_size := declared_size |}.

(** Modelled from the spec: [recognize] of [ocr_processor.py], which is not
    among the sources; section 4.4: the engine is called once, its failure is
    the page's failure, and tokens with empty text are dropped. *)
Definition recognize (page : PageImage) (lang : string)
  : option (list WordToken) :=
  match engine page lang with
  | Some tokens => Some (filter nonempty tokens)
  | None => None
  end.

Definition recognize_pages (pages : list PageImage) (lang : string)
  : list (option (list WordToken)) :=
  map (fun p => recognize (preprocess p) lang) pages.

(** Modelled from the spec: the page loop of [ocr_processor.py], which is not
    among the sources; sections 4.5 and 7: every page is recognised on its
    own, and the request fails only when no page could be recognised. *)
Definition process_pages (pages : list PageImage) (filename lang : string)
  : Error + ExtractionResult :=
  match pages with
  | [] => inl CorruptDocument
  | _ =>
      let results := recognize_pages pages lang in
      if forallb failed results then inl RecognitionEngineError
      else inr (aggregate results filename lang)
  end.

(** Modelled from the spec: the entry point [process] of [main.py], which is
    not among the sources; section 6. *)
Definition process (cfg : Config) (file_bytes : list Byte.byte)
    (filename lang : string) : Error + ExtractionResult :=
  match validate cfg file_bytes filename (Z.of_nat (List.length file_bytes)) with
  | inl e => inl e
  | inr doc =>
      match extract doc with
      | inl e => inl e
      | inr pages => process_pages pages filename lang
      end
  end.

End Stages.

Arguments recognize {PageImage} engine page lang.
Arguments recognize_pages {PageImage} preprocess engine pages lang.
Arguments process_pages {PageImage} preprocess engine pages filename lang.
Arguments process {PageImage} supported_signature extract preprocess engine
  cfg file_bytes filename lang.

End Pipeline.

(** ** Sample data *)

Module Samples.

Definition report_pdf : UploadArea.File :=
  {| UploadArea.name := "report.pdf";
     UploadArea.size := 204800;
     UploadArea.type := "application/pdf" |}.

Definition scan_png : UploadArea.File :=
  {| UploadArea.name := "scan.png";
     UploadArea.size := 51200;
     UploadArea.type := "image/png" |}.

Definition extracted : ResultsPanel.Result :=
  {| ResultsPanel.text := "Extracted text content...";
     ResultsPanel.confidence := JS.Fin 92.5;
     ResultsPanel.word_count := 150;
     ResultsPanel.page_count := Some 2%nat;
     ResultsPanel.language := "eng";
     ResultsPanel.original_filename := "report.pdf" |}.

Definition ok_response : App.Outcome :=
  App.Fulfilled (Some {| App.success := true;
                         App.data := Some extracted;
                         App.body_error := None |}).

Definition refused_response : App.Outcome :=
  App.Fulfilled (Some {| App.success := false;
                         App.data := None;
                         App.body_error := Some "Unsupported file type" |}).

Definition network_failure : App.Outcome :=
  App.Rejected {| App.response_error := None;
                  App.message := Some "Network Error" |}.

(** A three-page document, its pages named by their indices, and an engine
    that times out on the second page.  On the first page it reports a token
    without text and one without a confidence. *)
Definition three_pages : list nat := [0%nat; 1%nat; 2%nat].

Definition flaky_engine (page : nat) (lang : string)
  : option (list Pipeline.WordToken) :=
  match page with
  | 0%nat =>
      Some [ Pipeline.mkToken "Invoice" (Some 96%Q);
             Pipeline.mkToken "" (Some 12%Q);
             Pipeline.mkToken "N0." None;
             Pipeline.mkToken "42" (Some 91.5%Q) ]
  | 2%nat => Some [ Pipeline.mkToken "Total" (Some 88%Q) ]
  | _ => None
  end.

(** An engine that finds no word on any page. *)
Definition blank_engine (page : nat) (lang : string)
  : option (list Pipeline.WordToken) := Some [].

Definition as_is (page : nat) : nat := page.

End Samples.

(** ** The copy button of ResultsPanel

    [handleCopy] writes the text to the clipboard, and once the write has
    succeeded sets [copied] and starts a timer that clears it again.  The
    state is the [copied] cell, what the component last put on the clipboard,
    and the number of timers that have not fired yet. *)

Module CopyButton.

Record State : Type := mkState {
  copied : bool;
  clipboard : option string;
  timers : nat
}.

Definition initial : State :=
  {| copied := false; clipboard := None; timers := 0 |}.

(** [handleCopy], with whether [navigator.clipboard.writeText] resolved; when
    it rejects, the [catch] clause only logs. *)
Definition handleCopy (result : ResultsPanel.Result) (written : bool) (st : State)
  : State :=
  if written
  then {| copied := true;
          clipboard := Some (ResultsPanel.text result);
          timers := S (timers st) |}
  else st.

(** The callback given to [setTimeout]: [setCopied(false)]. *)
Definition timer_fires (st : State) : option State :=
  match timers st with
  | O => None
  | S n => Some {| copied := false; clipboard := clipboard st; timers := n |}
  end.

Inductive Event : Type :=
| ClickCopy (written : bool)
| TimerFires.

Definition fire (result : ResultsPanel.Result) (e : Event) (st : State)
  : option State :=
  match e with
  | ClickCopy written => Some (handleCopy result written st)
  | TimerFires => timer_fires st
  end.

Fixpoint run (result : ResultsPanel.Result) (events : list Event) (st : State)
  : option State :=
  match events with
  | [] => Some st
  | e :: events' =>
      match fire result e st with
      | Some st' => run result events' st'
      | None => None
      end
  end.

Definition succeeded (e : Event) : bool :=
  match e with
  | ClickCopy written => written
  | TimerFires => false
  end.

End CopyButton.

(** Is the event a click on "Extract Text"? *)
Definition is_extract_click (e : Page.Event) : bool :=
  match e with
  | Page.ClickExtract => true
  | _ => false
  end.

(** * Properties *)

(** ** Numbers and strings *)

Lemma Qle_bool_false (a b : Q) : Qle_bool a b = false <-> (b < a)%Q.
Proof.
  split; intro H.
  - apply Qnot_le_lt. intro Hle. apply Qle_bool_iff in Hle. congruence.
  - destruct (Qle_bool a b) eqn:E; [ | reflexivity ].
    apply Qle_bool_iff in E. apply Qlt_not_le in H. contradiction.
Qed.

Lemma ge_true_iff (a : JS.jsnum) (k : Q) : JS.ge a k = true <-> JS.Ge a k.
Proof.
  destruct a as [q | | ]; simpl.
  - apply Qle_bool_iff.
  - tauto.
  - split; [ discriminate | contradiction ].
Qed.

Lemma ge_false_iff (a : JS.jsnum) (k : Q) : JS.ge a k = false <-> JS.Lt a k.
Proof.
  destruct a as [q | | ]; simpl.
  - apply Qle_bool_false.
  - split; [ discriminate | contradiction ].
  - tauto.
Qed.

(** ** ResultsPanel *)

(** The three branches of the two classifiers, with the range each is taken
    on. *)
Lemma confidence_cases (c : JS.jsnum) :
  (JS.Ge c 80 /\
   ResultsPanel.getConfidenceLabel c = "High Confidence" /\
   ResultsPanel.getConfidenceColor c = "text-green-600 bg-green-50") \/
  (JS.Ge c 60 /\ JS.Lt c 80 /\
   ResultsPanel.getConfidenceLabel c = "Medium Confidence" /\
   ResultsPanel.getConfidenceColor c = "text-yellow-600 bg-yellow-50") \/
  (JS.Lt c 60 /\
   ResultsPanel.getConfidenceLabel c = "Low Confidence" /\
   ResultsPanel.getConfidenceColor c = "text-orange-600 bg-orange-50").
Proof.
  unfold ResultsPanel.getConfidenceLabel, ResultsPanel.getConfidenceColor.
  destruct (JS.ge c 80) eqn:H80.
  - left. apply ge_true_iff in H80. auto.
  - apply ge_false_iff in H80.
    destruct (JS.ge c 60) eqn:H60.
    + right; left. apply ge_true_iff in H60. auto.
    + right; right. apply ge_false_iff in H60. auto.
Qed.

Example labels_at_the_thresholds :
  map ResultsPanel.getConfidenceLabel
      [JS.Fin 92.5; JS.Fin 80; JS.Fin 79.9; JS.Fin 60; JS.Fin 59.9; JS.Fin 0]
  = ["High Confidence"; "High Confidence"; "Medium Confidence";
     "Medium Confidence"; "Low Confidence"; "Low Confidence"].
Proof. reflexivity. Qed.

(** C9.  For every numeric confidence the label is exactly one of the three:
    "High Confidence" if and only if [confidence >= 80], "Medium Confidence"
    if and only if [60 <= confidence < 80], "Low Confidence" if and only if
    [confidence < 60]; and [getConfidenceColor] gives its three classes on
    the same three ranges. *)
Theorem getConfidence_partition (confidence : JS.jsnum) :
  let label := ResultsPanel.getConfidenceLabel confidence in
  let color := ResultsPanel.getConfidenceColor confidence in
  (label = "High Confidence" <-> JS.Ge confidence 80) /\
  (label = "Medium Confidence" <-> JS.Ge confidence 60 /\ JS.Lt confidence 80) /\
  (label = "Low Confidence" <-> JS.Lt confidence 60) /\
  (color = "text-green-600 bg-green-50" <-> JS.Ge confidence 80) /\
  (color = "text-yellow-600 bg-yellow-50" <-> JS.Ge confidence 60 /\ JS.Lt confidence 80) /\
  (color = "text-orange-600 bg-orange-50" <-> JS.Lt confidence 60) /\
  (label = "High Confidence" \/ label = "Medium Confidence" \/ label = "Low Confidence") /\
  (JS.Ge confidence 80 \/ (JS.Ge confidence 60 /\ JS.Lt confidence 80) \/ JS.Lt confidence 60).
Proof.
  destruct (confidence_cases confidence)
    as [(H & -> & ->) | [(H & H' & -> & ->) | (H & -> & ->)]];
    cbv zeta; destruct confidence as [q | | ]; simpl in *;
    intuition (try discriminate; try lra).
Qed.

Lemma string_forall_append (p : ascii -> bool) (s1 s2 : string) :
  string_forall p (s1 ++ s2) = string_forall p s1 && string_forall p s2.
Proof.
  induction s1 as [ | c s1 IH ]; simpl.
  - reflexivity.
  - rewrite IH. apply andb_assoc.
Qed.

Lemma string_forall_impl (p q : ascii -> bool) (s : string) :
  (forall c, p c = true -> q c = true) ->
  string_forall p s = true -> string_forall q s = true.
Proof.
  intros Hpq. induction s as [ | c s IH ]; simpl.
  - reflexivity.
  - intros H. apply andb_true_iff in H as [Hc Hs].
    rewrite (Hpq c Hc), (IH Hs). reflexivity.
Qed.

Lemma has_dotdot_cons (c : ascii) (s : string) :
  is_dot c = false -> has_dotdot (String c s) = has_dotdot s.
Proof.
  unfold is_dot. intros Hc. destruct s as [ | c' s ]; simpl.
  - reflexivity.
  - rewrite Hc. reflexivity.
Qed.

Lemma has_dotdot_append (s1 s2 : string) :
  string_forall (fun c => negb (is_dot c)) s1 = true ->
  has_dotdot (s1 ++ s2) = has_dotdot s2.
Proof.
  induction s1 as [ | c s1 IH ].
  - reflexivity.
  - intros H. simpl in H. apply andb_true_iff in H as [Hc Hs].
    apply negb_true_iff in Hc.
    change (String c s1 ++ s2) with (String c (s1 ++ s2)).
    rewrite (has_dotdot_cons c (s1 ++ s2) Hc). apply IH, Hs.
Qed.

Lemma string_of_uint_digits (d : Decimal.uint) :
  string_forall is_digit (NilEmpty.string_of_uint d) = true.
Proof. induction d; simpl; auto. Qed.

Lemma toString_chars (n : Z) :
  string_forall is_sign_or_digit (JS.toString n) = true.
Proof.
  unfold JS.toString.
  destruct (Z.to_int n) as [d | d]; simpl.
  - apply (string_forall_impl is_digit); [ | apply string_of_uint_digits ].
    intros c Hc. unfold is_sign_or_digit. rewrite Hc. reflexivity.
  - apply (string_forall_impl is_digit); [ | apply string_of_uint_digits ].
    intros c Hc. unfold is_sign_or_digit. rewrite Hc. reflexivity.
Qed.

Lemma sign_or_digit_plain (c : ascii) :
  is_sign_or_digit c = true -> negb (is_path_char c) = true /\ negb (is_dot c) = true.
Proof.
  unfold is_sign_or_digit, is_digit, is_path_char, is_dot.
  destruct c as [[] [] [] [] [] [] [] []]; vm_compute; intuition discriminate.
Qed.

Lemma string_length_append (s1 s2 : string) :
  String.length (s1 ++ s2) = (String.length s1 + String.length s2)%nat.
Proof.
  induction s1 as [ | c s1 IH ]; simpl; [ reflexivity | now rewrite IH ].
Qed.

Example download_name_on_new_year_2026 :
  ResultsPanel.download (ResultsPanel.handleDownload Samples.extracted 1767225600000)
  = "extracted-text-1767225600000.txt".
Proof. reflexivity. Qed.

(** C2, as the client has it.  The name [handleDownload] gives the file is
    "extracted-text-", the clock reading in decimal, ".txt".  It is the same
    for every result, whatever name the document was uploaded under; it holds
    no path separator and no null byte, no parent-directory segment, and its
    length is 19 more than that of the clock reading. *)
Theorem handleDownload_name (result : ResultsPanel.Result) (now : Z) :
  let name := ResultsPanel.download (ResultsPanel.handleDownload result now) in
  name = "extracted-text-" ++ JS.toString now ++ ".txt" /\
  (forall other : ResultsPanel.Result,
     ResultsPanel.download (ResultsPanel.handleDownload other now) = name) /\
  string_forall (fun c => negb (is_path_char c)) name = true /\
  has_dotdot name = false /\
  String.length name = (19 + String.length (JS.toString now))%nat.
Proof.
  cbv zeta. unfold ResultsPanel.handleDownload. cbn [ResultsPanel.download].
  pose proof (toString_chars now) as Hchars.
  repeat split.
  - rewrite !string_forall_append. apply andb_true_iff; split; [ reflexivity | ].
    apply andb_true_iff; split; [ | reflexivity ].
    revert Hchars. apply string_forall_impl.
    intros c Hc. apply (sign_or_digit_plain c Hc).
  - rewrite has_dotdot_append by reflexivity.
    rewrite has_dotdot_append; [ reflexivity | ].
    revert Hchars. apply string_forall_impl.
    intros c Hc. apply (sign_or_digit_plain c Hc).
  - rewrite !string_length_append. simpl. lia.
Qed.

(** A result whose document was uploaded as "scan.png" is downloaded under
    two different names at two clock readings, neither of them made from
    "scan.png": no sanitiser of the uploaded name yields the download name. *)
Lemma handleDownload_name_not_from_upload :
  let scan :=
    {| ResultsPanel.text := "Hello";
       ResultsPanel.confidence := JS.Fin 92.5;
       ResultsPanel.word_count := 1;
       ResultsPanel.page_count := Some 1%nat;
       ResultsPanel.language := "eng";
       ResultsPanel.original_filename := "scan.png" |} in
  ResultsPanel.download (ResultsPanel.handleDownload scan 0) = "extracted-text-0.txt" /\
  ResultsPanel.download (ResultsPanel.handleDownload scan 1) = "extracted-text-1.txt" /\
  ~ (exists sanitize : string -> string,
       forall (result : ResultsPanel.Result) (now : Z),
         ResultsPanel.download (ResultsPanel.handleDownload result now)
         = sanitize (ResultsPanel.original_filename result)).
Proof.
  cbv zeta. split; [ reflexivity | split; [ reflexivity | ] ].
  intros [sanitize H].
  pose proof (H (ResultsPanel.mkResult "" (JS.Fin 0) 0 None "" "scan.png") 0%Z) as H0.
  pose proof (H (ResultsPanel.mkResult "" (JS.Fin 0) 0 None "" "scan.png") 1%Z) as H1.
  cbn in H0, H1. rewrite <- H1 in H0. discriminate H0.
Qed.

(** ** UploadArea and the page *)

Lemma handleUpload_calls (st : UploadArea.State) (arg : option UploadArea.File) :
  In arg (UploadArea.handleUpload st) ->
  exists file, arg = Some file /\ UploadArea.selectedFile st = Some file.
Proof.
  unfold UploadArea.handleUpload.
  destruct (UploadArea.selectedFile st) as [file | ] eqn:E; simpl.
  - intros [<- | []]. exists file. split; [ reflexivity | reflexivity ].
  - intros [].
Qed.

Lemma extract_button_guard (st : UploadArea.State) (isProcessing : bool) :
  UploadArea.extract_button_rendered st isProcessing = true <->
  UploadArea.selectedFile st <> None /\ isProcessing = false.
Proof.
  unfold UploadArea.extract_button_rendered.
  destruct (UploadArea.selectedFile st) as [file | ]; destruct isProcessing; simpl;
    intuition (try discriminate; try congruence).
Qed.

(** Only a click on "Extract Text" sends a request, and the request carries
    the file selected at the click. *)
Lemma fire_sent (e : Page.Event) (s s' : Page.State) :
  Page.fire e s = Some s' ->
  (e <> Page.ClickExtract /\ Page.sent s' = Page.sent s) \/
  (e = Page.ClickExtract /\
   exists file,
     UploadArea.selectedFile (Page.upload s) = Some file /\
     App.isProcessing (Page.app s) = false /\
     App.result (Page.app s) = None /\
     Page.sent s' = (Page.sent s ++ [Some file])%list /\
     Page.awaited s' = (Page.awaited s ++ [Some file])%list /\
     Page.app s' = App.handleFileSelect_begin (Page.app s)).
Proof.
  destruct e; simpl; intros H.
  - left. destruct (_ && _) in H; inversion H; subst. split; [ discriminate | reflexivity ].
  - left. destruct (App.renders_upload_area _) in H; inversion H; subst.
    split; [ discriminate | reflexivity ].
  - left. destruct (_ && _) in H; inversion H; subst. split; [ discriminate | reflexivity ].
  - right. split; [ reflexivity | ].
    destruct (App.renders_upload_area (Page.app s)) eqn:Hmount; simpl in H; [ | discriminate ].
    destruct (UploadArea.extract_button_rendered _ _) eqn:Hbutton; [ | discriminate ].
    unfold App.renders_upload_area in Hmount.
    destruct (App.result (Page.app s)) eqn:Hres; [ discriminate | ].
    apply negb_true_iff in Hmount.
    unfold UploadArea.extract_button_rendered in Hbutton.
    unfold UploadArea.handleUpload in H.
    destruct (UploadArea.selectedFile (Page.upload s)) as [file | ] eqn:Hsel; [ | discriminate ].
    exists file. inversion H; subst; simpl. repeat split; auto.
  - left. destruct (Page.awaited s); inversion H; subst. split; [ discriminate | reflexivity ].
  - left. destruct (_ || _) in H; inversion H; subst. split; [ discriminate | reflexivity ].
Qed.

Lemma initial_invariant : page_invariant Page.initial.
Proof.
  split; simpl; auto; discriminate.
Qed.

Lemma handleFileSelect_end_sets_one (o : App.Outcome) (st : App.State) :
  App.result st = None -> App.error st = None ->
  let st' := App.handleFileSelect_end o st in
  (App.result st' = None \/ App.error st' = None) /\ App.isProcessing st' = false.
Proof.
  intros Hr He. cbv zeta. unfold App.handleFileSelect_end.
  destruct o as [[body | ] | err]; simpl.
  - destruct (App.success body); simpl; auto.
  - auto.
  - auto.
Qed.

Lemma fire_invariant (e : Page.Event) (s s' : Page.State) :
  page_invariant s -> Page.fire e s = Some s' -> page_invariant s'.
Proof.
  intros [Hbusy Hidle Hexcl Hsent] H.
  destruct (fire_sent e s s' H) as [[Hne Hsame] | [-> (file & Hsel & Hproc & Hres & Hs & Ha & Happ)]].
  - destruct e; simpl in H; try congruence.
    + destruct (_ && _) in H; inversion H; subst; split; simpl; auto.
    + destruct (App.renders_upload_area _) in H; inversion H; subst; split; simpl; auto.
    + destruct (_ && _) in H; inversion H; subst; split; simpl; auto.
    + destruct (Page.awaited s) as [ | file rest ] eqn:Haw; inversion H; subst; clear H.
      destruct (App.isProcessing (Page.app s)) eqn:Hp.
      * destruct (Hbusy eq_refl) as (Hr & He & file' & Hone).
        inversion Hone; subst.
        destruct (handleFileSelect_end_sets_one o (Page.app s) Hr He) as [Hx Hfalse].
        split; cbn [Page.app Page.awaited Page.sent]; auto.
        rewrite Hfalse. discriminate.
      * specialize (Hidle eq_refl). discriminate.
    + destruct (_ || _) in H; inversion H; subst; split; simpl; auto.
      intros Hp. destruct (Hbusy Hp) as (_ & _ & Hone). auto.
  - split.
    + rewrite Happ, Ha. simpl. intros _. rewrite (Hidle Hproc). simpl. eauto.
    + rewrite Happ. simpl. discriminate.
    + rewrite Happ. simpl. auto.
    + rewrite Hs. apply Forall_app. split; [ exact Hsent | ].
      constructor; [ discriminate | constructor ].
Qed.

Lemma run_invariant (events : list Page.Event) (s s' : Page.State) :
  page_invariant s -> Page.run events s = Some s' -> page_invariant s'.
Proof.
  revert s. induction events as [ | e events IH ]; simpl; intros s Hinv H.
  - inversion H; subst. exact Hinv.
  - destruct (Page.fire e s) as [s1 | ] eqn:Hfire; [ | discriminate ].
    apply (IH s1); [ | exact H ]. apply (fire_invariant e s); assumption.
Qed.

(** While a request is awaited the button is gone: a second click is not
    possible. *)
Example second_click_is_refused :
  Page.run [Page.Drop [Samples.scan_png]; Page.ClickExtract; Page.ClickExtract]
           Page.initial = None.
Proof. reflexivity. Qed.

(** C10.  A request is never sent without a selected file.  [handleUpload]
    calls [onFileSelect] only with the selected file, and not at all when
    there is none; the "Extract Text" button is rendered exactly when a file
    is selected and nothing is being processed; on the page, a request is
    sent only by a click on that button, with the file selected at the click,
    so every request ever sent carries a file. *)
Theorem request_needs_selected_file :
  (forall (st : UploadArea.State) (arg : option UploadArea.File),
     In arg (UploadArea.handleUpload st) ->
     exists file, arg = Some file /\ UploadArea.selectedFile st = Some file) /\
  (forall st : UploadArea.State,
     UploadArea.selectedFile st = None -> UploadArea.handleUpload st = []) /\
  (forall (st : UploadArea.State) (isProcessing : bool),
     UploadArea.extract_button_rendered st isProcessing = true <->
     UploadArea.selectedFile st <> None /\ isProcessing = false) /\
  (forall (e : Page.Event) (s s' : Page.State),
     Page.fire e s = Some s' -> Page.sent s' <> Page.sent s ->
     e = Page.ClickExtract /\
     exists file,
       UploadArea.selectedFile (Page.upload s) = Some file /\
       App.isProcessing (Page.app s) = false /\
       Page.sent s' = (Page.sent s ++ [Some file])%list) /\
  (forall (events : list Page.Event) (s : Page.State),
     Page.run events Page.initial = Some s ->
     Forall (fun file => file <> None) (Page.sent s)).
Proof.
  split; [ exact handleUpload_calls | ].
  split.
  { intros st H. unfold UploadArea.handleUpload. rewrite H. reflexivity. }
  split; [ exact extract_button_guard | ].
  split.
  - intros e s s' H Hchanged.
    destruct (fire_sent e s s' H) as [[_ Hsame] | [-> (file & Hsel & Hproc & _ & Hs & _)]].
    + contradiction.
    + split; [ reflexivity | ]. exists file. auto.
  - intros events s H.
    apply (inv_sent s). apply (run_invariant events Page.initial s initial_invariant H).
Qed.

(** After a PDF is dropped and "Extract Text" is clicked, the one request sent
    carries that PDF. *)
Lemma request_needs_selected_file_witness :
  exists s,
    Page.run [Page.Drop [Samples.report_pdf]; Page.ClickExtract] Page.initial = Some s /\
    Page.sent s = [Some Samples.report_pdf] /\
    Forall (fun file => file <> None) (Page.sent s).
Proof.
  eexists. split; [ reflexivity | ]. split; [ reflexivity | ].
  apply (proj2 (proj2 (proj2 (proj2 request_needs_selected_file)))
           [Page.Drop [Samples.report_pdf]; Page.ClickExtract]).
  reflexivity.
Defined.

(** ** App *)

(** The guard on the upload area matters: had a second call of
    [handleFileSelect] begun before the first one ended, the two endings could
    leave a result and an error side by side. *)
Remark overlapping_calls_are_excluded_by_the_guard :
  let st := App.handleFileSelect_end Samples.refused_response
              (App.handleFileSelect_end Samples.ok_response
                 (App.handleFileSelect_begin
                    (App.handleFileSelect_begin App.initial))) in
  App.result st <> None /\ App.error st <> None /\
  (forall s : Page.State,
     App.isProcessing (Page.app s) = true -> Page.fire Page.ClickExtract s = None).
Proof.
  cbv zeta. split; [ discriminate | split; [ discriminate | ] ].
  intros s Hbusy. simpl. unfold App.renders_upload_area. rewrite Hbusy.
  destruct (App.result (Page.app s)); reflexivity.
Qed.

(** C8.  [result] and [error] are never both set.  [handleFileSelect] clears
    both before the request goes out and sets at most one when it has ended;
    [isProcessing] is false once the request has ended, however it ended;
    [handleReset] clears both; and on the page, whatever the user and the
    network do, at most one of the two is set. *)
Theorem result_error_exclusive :
  (forall st : App.State,
     let st' := App.handleFileSelect_begin st in
     App.result st' = None /\ App.error st' = None /\ App.isProcessing st' = true) /\
  (forall (o : App.Outcome) (st : App.State),
     let st' := App.handleFileSelect o st in
     (App.result st' = None \/ App.error st' = None) /\ App.isProcessing st' = false) /\
  (forall (o : App.Outcome) (st : App.State),
     App.isProcessing (App.handleFileSelect_end o st) = false) /\
  (forall st : App.State,
     App.result (App.handleReset st) = None /\ App.error (App.handleReset st) = None) /\
  (forall (events : list Page.Event) (s : Page.State),
     Page.run events Page.initial = Some s ->
     App.result (Page.app s) = None \/ App.error (Page.app s) = None).
Proof.
  split; [ intros st; cbv zeta; simpl; auto | ].
  split.
  { intros o st. apply handleFileSelect_end_sets_one; reflexivity. }
  split.
  { intros o st. unfold App.handleFileSelect_end. reflexivity. }
  split; [ intros st; simpl; auto | ].
  intros events s H.
  apply (inv_exclusive s). apply (run_invariant events Page.initial s initial_invariant H).
Qed.

(** A refused upload followed by a successful one: the error of the first is
    gone when the result of the second is shown. *)
Lemma result_error_exclusive_witness :
  exists s,
    Page.run [Page.Drop [Samples.report_pdf]; Page.ClickExtract;
              Page.RequestEnds Samples.refused_response;
              Page.Drop [Samples.scan_png]; Page.ClickExtract;
              Page.RequestEnds Samples.ok_response] Page.initial = Some s /\
    App.result (Page.app s) = Some Samples.extracted /\
    (App.result (Page.app s) = None \/ App.error (Page.app s) = None).
Proof.
  eexists. split; [ reflexivity | ]. split; [ reflexivity | ].
  apply (proj2 (proj2 (proj2 (proj2 result_error_exclusive)))
           [Page.Drop [Samples.report_pdf]; Page.ClickExtract;
            Page.RequestEnds Samples.refused_response;
            Page.Drop [Samples.scan_png]; Page.ClickExtract;
            Page.RequestEnds Samples.ok_response]).
  reflexivity.
Defined.

(** ** FileValidator *)

Example extensions :
  map Pipeline.extension ["report.pdf"; "Scan.PNG"; "archive.tar.gz"; "README"]
  = [".pdf"; ".PNG"; ".gz"; ""].
Proof. reflexivity. Qed.

Lemma allowed_extension_In (cfg : Pipeline.Config) (filename : string) :
  Pipeline.allowed_extension cfg filename = true <->
  In (Pipeline.lowercase (Pipeline.extension filename)) (Pipeline.ALLOWED_EXTENSIONS cfg).
Proof.
  unfold Pipeline.allowed_extension. rewrite existsb_exists. split.
  - intros (e & Hin & Heq). apply String.eqb_eq in Heq. subst e. exact Hin.
  - intros Hin. eexists. split; [ exact Hin | apply String.eqb_refl ].
Qed.

Section ValidateFacts.

Variable supported_signature : list Byte.byte -> bool.
Variable cfg : Pipeline.Config.

Let validate := Pipeline.validate supported_signature cfg.

Lemma validate_accepts (bytes : list Byte.byte) (filename : string) (size : Z)
    (doc : Pipeline.ValidatedDocument) :
  validate bytes filename size = inr doc ->
  (size <= Pipeline.MAX_FILE_SIZE cfg)%Z /\
  In (Pipeline.lowercase (Pipeline.extension filename)) (Pipeline.ALLOWED_EXTENSIONS cfg) /\
  supported_signature bytes = true.
Proof.
  unfold validate, Pipeline.validate.
  destruct (Z.ltb_spec (Pipeline.MAX_FILE_SIZE cfg) size) as [Hbig | Hfits]; [ discriminate | ].
  destruct (Pipeline.allowed_extension cfg filename) eqn:Hext; simpl; [ | discriminate ].
  destruct (supported_signature bytes); simpl; [ | discriminate ].
  intros _. apply allowed_extension_In in Hext. auto.
Qed.

Lemma validate_too_large (bytes : list Byte.byte) (filename : string) (size : Z) :
  (Pipeline.MAX_FILE_SIZE cfg < size)%Z ->
  validate bytes filename size = inl Pipeline.FileTooLarge.
Proof.
  intros Hbig. unfold validate, Pipeline.validate.
  apply Z.ltb_lt in Hbig. rewrite Hbig. reflexivity.
Qed.

Lemma validate_unsupported (bytes : list Byte.byte) (filename : string) (size : Z) :
  (size <= Pipeline.MAX_FILE_SIZE cfg)%Z ->
  ~ In (Pipeline.lowercase (Pipeline.extension filename)) (Pipeline.ALLOWED_EXTENSIONS cfg) ->
  validate bytes filename size = inl Pipeline.UnsupportedType.
Proof.
  intros Hfits Hext. unfold validate, Pipeline.validate.
  apply Z.ltb_ge in Hfits. rewrite Hfits.
  destruct (Pipeline.allowed_extension cfg filename) eqn:E; [ | reflexivity ].
  apply allowed_extension_In in E. contradiction.
Qed.

End ValidateFacts.

(** The client's dropzone is set up with the limit and the extensions of the
    configuration. *)
Lemma dropzone_matches_config :
  UploadArea.maxSize = Pipeline.MAX_FILE_SIZE Pipeline.default_config /\
  flat_map snd UploadArea.accept = Pipeline.ALLOWED_EXTENSIONS Pipeline.default_config.
Proof. split; reflexivity. Qed.

(** C3.  With the configured limit of 10485760 bytes and the allow-list
    .png, .jpg, .jpeg, .pdf: a file is accepted only if its declared size is
    at most the limit and its extension, in lower case, is on the list; a file
    over the limit fails with [FileTooLarge]; a file within the limit whose
    extension is not on the list fails with [UnsupportedType]; and a file
    whose extension is not on the list fails with one of the two, the size
    being checked first. *)
Theorem validate_size_and_type
    (supported_signature : list Byte.byte -> bool)
    (bytes : list Byte.byte) (filename : string) (size : Z) :
  let outcome :=
    Pipeline.validate supported_signature Pipeline.default_config bytes filename size in
  let ext := Pipeline.lowercase (Pipeline.extension filename) in
  let allowed := [".png"; ".jpg"; ".jpeg"; ".pdf"] in
  (forall doc, outcome = inr doc -> (size <= 10485760)%Z /\ In ext allowed) /\
  ((10485760 < size)%Z -> outcome = inl Pipeline.FileTooLarge) /\
  ((size <= 10485760)%Z -> ~ In ext allowed -> outcome = inl Pipeline.UnsupportedType) /\
  (~ In ext allowed ->
   outcome = inl Pipeline.FileTooLarge \/ outcome = inl Pipeline.UnsupportedType).
Proof.
  cbv zeta. split; [ | split; [ | split ] ].
  - intros doc H.
    apply (validate_accepts supported_signature Pipeline.default_config) in H. tauto.
  - apply (validate_too_large supported_signature Pipeline.default_config).
  - apply (validate_unsupported supported_signature Pipeline.default_config).
  - intros Hext. destruct (Z.lt_ge_cases 10485760 size) as [Hbig | Hfits].
    + left. apply (validate_too_large supported_signature Pipeline.default_config).
      exact Hbig.
    + right. apply (validate_unsupported supported_signature Pipeline.default_config);
        assumption.
Qed.

(** "Scan.PNG" of 51200 bytes passes both checks; "big.pdf" of one byte over
    the limit is too large; "notes.txt" is of an unsupported type. *)
Lemma validate_size_and_type_witness :
  let png (_ : list Byte.byte) := true in
  ((51200 <= 10485760)%Z /\
   In (Pipeline.lowercase (Pipeline.extension "Scan.PNG")) [".png"; ".jpg"; ".jpeg"; ".pdf"]) /\
  Pipeline.validate png Pipeline.default_config [] "big.pdf" 10485761
  = inl Pipeline.FileTooLarge /\
  Pipeline.validate png Pipeline.default_config [] "notes.txt" 512
  = inl Pipeline.UnsupportedType.
Proof.
  cbv zeta. split; [ | split ].
  - apply (proj1 (validate_size_and_type (fun _ => true) [] "Scan.PNG" 51200)
             (Pipeline.mkValidated [] "Scan.PNG" 51200)).
    reflexivity.
  - apply (proj1 (proj2 (validate_size_and_type (fun _ => true) [] "big.pdf" 10485761))).
    reflexivity.
  - apply (proj1 (proj2 (proj2 (validate_size_and_type (fun _ => true) [] "notes.txt" 512)))).
    + discriminate.
    + simpl. intuition discriminate.
Defined.

(** ** ResultAggregator *)

Lemma inject_Z_succ (n : nat) :
  (inject_Z (Z.of_nat (S n)) == inject_Z (Z.of_nat n) + 1)%Q.
Proof.
  rewrite Nat2Z.inj_succ. unfold Z.succ. rewrite inject_Z_plus. reflexivity.
Qed.

Lemma Qsum_bounds (l : list Q) :
  Forall Pipeline.valid_confidence l ->
  (0 <= Pipeline.Qsum l <= 100 * inject_Z (Z.of_nat (List.length l)))%Q.
Proof.
  induction 1 as [ | c l [Hlo Hhi] _ IH ].
  - cbn. unfold Qle; simpl; lia.
  - change (Pipeline.Qsum (c :: l)) with (c + Pipeline.Qsum l)%Q.
    change (List.length (c :: l)) with (S (List.length l)).
    rewrite inject_Z_succ. lra.
Qed.

Lemma mean_bounds (l : list Q) :
  l <> [] -> Forall Pipeline.valid_confidence l ->
  Pipeline.valid_confidence (Pipeline.mean l).
Proof.
  intros Hne Hall. pose proof (Qsum_bounds l Hall) as [Hlo Hhi].
  assert (Hpos : (0 < inject_Z (Z.of_nat (List.length l)))%Q).
  { destruct l as [ | c l ]; [ congruence | ].
    change 0%Q with (inject_Z 0). rewrite <- Zlt_Qlt. simpl. lia. }
  unfold Pipeline.valid_confidence, Pipeline.mean. split.
  - apply Qle_shift_div_l; [ exact Hpos | lra ].
  - apply Qle_shift_div_r; [ exact Hpos | lra ].
Qed.

Lemma round1_bounds (q : Q) :
  Pipeline.valid_confidence q -> Pipeline.valid_confidence (Pipeline.round1 q).
Proof.
  intros [Hlo Hhi]. unfold Pipeline.round1.
  assert (H0 : (Qfloor 0 <= Qfloor (q * 10 + (1 # 2)))%Z)
    by (apply Qfloor_resp_le; lra).
  assert (H1 : (Qfloor (q * 10 + (1 # 2)) <= Qfloor (2001 # 2))%Z)
    by (apply Qfloor_resp_le; lra).
  change (Qfloor 0) with 0%Z in H0. change (Qfloor (2001 # 2)) with 1000%Z in H1.
  unfold Pipeline.valid_confidence, Qle. cbn [Qnum Qden]. lia.
Qed.

(** [round1] gives a nearest tenth. *)
Lemma round1_nearest (q : Q) :
  (- (1 # 20) <= Pipeline.round1 q - q <= 1 # 20)%Q.
Proof.
  unfold Pipeline.round1.
  pose proof (Qfloor_le (q * 10 + (1 # 2))) as Hle.
  pose proof (Qlt_floor (q * 10 + (1 # 2))) as Hlt.
  rewrite inject_Z_plus in Hlt. change (inject_Z 1) with 1%Q in Hlt.
  set (k := Qfloor (q * 10 + (1 # 2))) in *.
  assert (E : (k # 10 == inject_Z k * (1 # 10))%Q).
  { unfold Qeq, inject_Z, Qmult. simpl. lia. }
  rewrite E. split; lra.
Qed.

Lemma aggregate_confidence_range (scores : list Q) :
  Forall Pipeline.valid_confidence scores ->
  Pipeline.valid_confidence (Pipeline.aggregate_confidence scores).
Proof.
  intros Hall. destruct scores as [ | c scores ].
  - simpl. unfold Pipeline.valid_confidence. lra.
  - apply round1_bounds, mean_bounds; [ discriminate | exact Hall ].
Qed.

Lemma reported_valid (tokens : list Pipeline.WordToken) :
  Forall Pipeline.well_formed tokens ->
  Forall Pipeline.valid_confidence (Pipeline.reported tokens).
Proof.
  induction 1 as [ | t tokens Ht _ IH ]; simpl.
  - constructor.
  - unfold Pipeline.well_formed in Ht.
    destruct (Pipeline.token_confidence t); [ constructor; assumption | assumption ].
Qed.

Lemma Forall_filter {A : Type} (P : A -> Prop) (f : A -> bool) (l : list A) :
  Forall P l -> Forall P (filter f l).
Proof.
  induction 1 as [ | x l Hx _ IH ]; simpl; [ constructor | ].
  destruct (f x); [ constructor; assumption | assumption ].
Qed.

Lemma filter_filter {A : Type} (f : A -> bool) (l : list A) :
  filter f (filter f l) = filter f l.
Proof.
  induction l as [ | x l IH ]; simpl; [ reflexivity | ].
  destruct (f x) eqn:E; simpl; [ rewrite E, IH | ]; auto.
Qed.

Lemma flat_map_map {A B C : Type} (f : B -> list C) (g : A -> B) (l : list A) :
  flat_map f (map g l) = flat_map (fun x => f (g x)) l.
Proof.
  induction l as [ | x l IH ]; simpl; [ reflexivity | now rewrite IH ].
Qed.

Lemma flat_map_nil {A B : Type} (f : A -> list B) (l : list A) :
  flat_map f l = [] <-> (forall x, In x l -> f x = []).
Proof.
  induction l as [ | x l IH ]; simpl.
  - split; [ intros _ y [] | reflexivity ].
  - split.
    + intros H. apply app_eq_nil in H as [Hx Hl].
      intros y [<- | Hy]; [ exact Hx | apply IH; assumption ].
    + intros H. rewrite (H x (or_introl eq_refl)). simpl.
      apply IH. intros y Hy. apply H. right. exact Hy.
Qed.

Section PagesFacts.

Variable PageImage : Type.
Variable preprocess : PageImage -> PageImage.
Variable engine : PageImage -> string -> option (list Pipeline.WordToken).
Variable lang : string.

(** The tokens of a page that reach the aggregator. *)
Let kept (p : PageImage) : list Pipeline.WordToken :=
  match engine (preprocess p) lang with
  | Some tokens => filter Pipeline.nonempty tokens
  | None => []
  end.

Lemma recognized_tokens (p : PageImage) :
  Pipeline.page_tokens (Pipeline.recognize engine (preprocess p) lang) = kept p.
Proof.
  unfold Pipeline.recognize, kept. destruct (engine (preprocess p) lang); reflexivity.
Qed.

Lemma recognized_scores (pages : list PageImage) :
  flat_map (fun page => Pipeline.reported (Pipeline.page_tokens page))
           (Pipeline.recognize_pages preprocess engine pages lang)
  = flat_map (fun p => Pipeline.reported (kept p)) pages.
Proof.
  unfold Pipeline.recognize_pages. rewrite flat_map_map.
  apply flat_map_ext. intros p. now rewrite recognized_tokens.
Qed.

Lemma recognized_words (pages : list PageImage) :
  flat_map (fun page => filter Pipeline.nonempty (Pipeline.page_tokens page))
           (Pipeline.recognize_pages preprocess engine pages lang)
  = flat_map kept pages.
Proof.
  unfold Pipeline.recognize_pages. rewrite flat_map_map.
  apply flat_map_ext. intros p. rewrite recognized_tokens.
  unfold kept. destruct (engine (preprocess p) lang); [ apply filter_filter | reflexivity ].
Qed.

Lemma recognized_texts (pages : list PageImage) :
  map Pipeline.page_text (Pipeline.recognize_pages preprocess engine pages lang)
  = map (fun p => String.concat Pipeline.word_separator
                    (map Pipeline.token_text (kept p))) pages.
Proof.
  unfold Pipeline.recognize_pages. rewrite map_map.
  apply map_ext. intros p. unfold Pipeline.recognize, kept.
  destruct (engine (preprocess p) lang); reflexivity.
Qed.

Lemma process_pages_result (pages : list PageImage) (filename : string)
    (r : Pipeline.ExtractionResult) :
  Pipeline.process_pages preprocess engine pages filename lang = inr r ->
  r = Pipeline.aggregate (Pipeline.recognize_pages preprocess engine pages lang)
        filename lang.
Proof.
  unfold Pipeline.process_pages. destruct pages as [ | p pages ]; [ discriminate | ].
  destruct (forallb _ _); [ discriminate | ]. intros H. inversion H. reflexivity.
Qed.

End PagesFacts.

Example three_pages_aggregated :
  let r := Pipeline.aggregate
             (Pipeline.recognize_pages Samples.as_is Samples.flaky_engine
                Samples.three_pages "eng") "scan.pdf" "eng" in
  Pipeline.confidence r = (918 # 10)%Q /\
  Pipeline.word_count r = 4%nat /\
  Pipeline.page_count r = 3%nat.
Proof. cbv zeta. repeat split; reflexivity. Qed.

(** C4.  When the engine reports only percentages, the confidence of every
    result lies between 0 and 100; and when no word was recognised on any
    page, the confidence is exactly 0 and the word count is 0. *)
Theorem confidence_in_range (PageImage : Type)
    (preprocess : PageImage -> PageImage)
    (engine : PageImage -> string -> option (list Pipeline.WordToken))
    (pages : list PageImage) (filename lang : string)
    (r : Pipeline.ExtractionResult) :
  (forall page tokens,
     engine page lang = Some tokens -> Forall Pipeline.well_formed tokens) ->
  Pipeline.process_pages preprocess engine pages filename lang = inr r ->
  (0 <= Pipeline.confidence r <= 100)%Q /\
  ((forall p tokens,
      In p pages -> engine (preprocess p) lang = Some tokens ->
      filter Pipeline.nonempty tokens = []) ->
   Pipeline.confidence r = 0%Q /\ Pipeline.word_count r = 0%nat) /\
  (Pipeline.word_count r = 0%nat -> Pipeline.confidence r = 0%Q).
Proof.
  intros Hwf Hr. apply process_pages_result in Hr. subst r.
  unfold Pipeline.aggregate.
  cbn [Pipeline.confidence Pipeline.word_count].
  rewrite recognized_scores, recognized_words.
  split; [ | split ].
  - apply aggregate_confidence_range. apply Forall_flat_map, Forall_forall.
    intros p _. apply reported_valid.
    destruct (engine (preprocess p) lang) as [tokens | ] eqn:E; [ | constructor ].
    apply Forall_filter. apply (Hwf (preprocess p)). exact E.
  - intros Hnone.
    assert (Hkept : forall p, In p pages ->
              match engine (preprocess p) lang with
              | Some tokens => filter Pipeline.nonempty tokens
              | None => []
              end = []).
    { intros p Hp. destruct (engine (preprocess p) lang) as [tokens | ] eqn:E;
        [ apply (Hnone p tokens Hp E) | reflexivity ]. }
    split.
    + replace (flat_map _ pages) with (@nil Q); [ reflexivity | ].
      symmetry. apply flat_map_nil. intros p Hp. rewrite (Hkept p Hp). reflexivity.
    + replace (flat_map _ pages) with (@nil Pipeline.WordToken); [ reflexivity | ].
      symmetry. apply flat_map_nil. exact Hkept.
  - intros Hzero. apply length_zero_iff_nil in Hzero.
    replace (flat_map _ pages) with (@nil Q); [ reflexivity | ].
    symmetry. apply flat_map_nil. intros p Hp.
    rewrite (proj1 (flat_map_nil _ pages) Hzero p Hp). reflexivity.
Qed.

(** The flaky engine reports percentages, so the confidence of the three-page
    document is in range; with the blank engine it is 0, and so is the word
    count. *)
Lemma confidence_in_range_witness :
  let r := Pipeline.aggregate
             (Pipeline.recognize_pages Samples.as_is Samples.flaky_engine
                Samples.three_pages "eng") "scan.pdf" "eng" in
  let blank := Pipeline.aggregate
                 (Pipeline.recognize_pages Samples.as_is Samples.blank_engine
                    Samples.three_pages "eng") "scan.pdf" "eng" in
  (0 <= Pipeline.confidence r <= 100)%Q /\
  (Pipeline.confidence blank = 0%Q /\ Pipeline.word_count blank = 0%nat).
Proof.
  cbv zeta. split.
  - apply (confidence_in_range nat Samples.as_is Samples.flaky_engine
             Samples.three_pages "scan.pdf" "eng").
    + intros page tokens H.
      destruct page as [ | [ | [ | page ] ] ]; simpl in H; inversion H; subst;
        repeat (apply Forall_cons || apply Forall_nil);
        unfold Pipeline.well_formed, Pipeline.valid_confidence; simpl;
        try exact I; split; discriminate.
    + reflexivity.
  - apply (confidence_in_range nat Samples.as_is Samples.blank_engine
             Samples.three_pages "scan.pdf" "eng").
    + intros page tokens H. inversion H. constructor.
    + reflexivity.
    + intros p tokens _ H. inversion H. reflexivity.
Defined.

Lemma In_reported (tokens : list Pipeline.WordToken) (c : Q) :
  In c (Pipeline.reported tokens) <->
  exists t, In t tokens /\ Pipeline.token_confidence t = Some c.
Proof.
  induction tokens as [ | t tokens IH ]; simpl.
  - split; [ intros [] | intros (t & [] & _) ].
  - destruct (Pipeline.token_confidence t) as [c' | ] eqn:E; simpl; rewrite IH; split.
    + intros [<- | (t' & Hin & Hc)]; [ exists t; auto | exists t'; auto ].
    + intros (t' & [<- | Hin] & Hc); [ left; congruence | right; exists t'; auto ].
    + intros (t' & Hin & Hc). exists t'; auto.
    + intros (t' & [<- | Hin] & Hc); [ congruence | exists t'; auto ].
Qed.

Lemma reported_flat_map (tokens : list Pipeline.WordToken) :
  Pipeline.reported tokens
  = flat_map (fun t => match Pipeline.token_confidence t with
                       | Some c => [c]
                       | None => []
                       end) tokens.
Proof.
  induction tokens as [ | t tokens IH ]; simpl; [ reflexivity | ].
  destruct (Pipeline.token_confidence t); simpl; now rewrite IH.
Qed.

(** C5.  The tokens of a page that reach the aggregator are the engine's
    tokens with non-empty text, in the engine's order.  All of them, with or
    without a confidence, make up the text and the word count.  The confidence
    is taken over those of them that report one, each counted once: it is 0
    when none does, and otherwise a number of tenths at most one twentieth
    away from their sum divided by their number. *)
Theorem token_aggregation (PageImage : Type)
    (preprocess : PageImage -> PageImage)
    (engine : PageImage -> string -> option (list Pipeline.WordToken))
    (pages : list PageImage) (filename lang : string) :
  let has_text := fun t => negb (String.eqb (Pipeline.token_text t) "") in
  let kept := fun p =>
    match engine (preprocess p) lang with
    | Some tokens => filter has_text tokens
    | None => []
    end in
  let score := fun t =>
    match Pipeline.token_confidence t with
    | Some c => [c]
    | None => []
    end in
  let scores := flat_map (fun p => flat_map score (kept p)) pages in
  let r := Pipeline.aggregate
             (Pipeline.recognize_pages preprocess engine pages lang) filename lang in
  (forall p,
     Pipeline.page_tokens (Pipeline.recognize engine (preprocess p) lang) = kept p) /\
  (forall p t,
     In t (kept p) <->
     exists tokens, engine (preprocess p) lang = Some tokens /\
                    In t tokens /\ Pipeline.token_text t <> "") /\
  Pipeline.text r
  = String.concat (String "010" (String "010" EmptyString))
      (map (fun p => String.concat " " (map Pipeline.token_text (kept p))) pages) /\
  Pipeline.word_count r = List.length (flat_map kept pages) /\
  (forall c,
     In c scores <->
     exists p t, In p pages /\ In t (kept p) /\ Pipeline.token_confidence t = Some c) /\
  (scores = [] -> Pipeline.confidence r = 0%Q) /\
  (scores <> [] ->
   (exists tenths : Z, Pipeline.confidence r = tenths # 10) /\
   (- (1 # 20)
    <= Pipeline.confidence r
       - fold_right Qplus 0%Q scores / inject_Z (Z.of_nat (List.length scores))
    <= 1 # 20)%Q).
Proof.
  cbv zeta. unfold Pipeline.aggregate.
  cbn [Pipeline.confidence Pipeline.word_count Pipeline.text].
  rewrite recognized_scores, recognized_words, recognized_texts.
  change (fun t : Pipeline.WordToken => negb (String.eqb (Pipeline.token_text t) ""))
    with Pipeline.nonempty.
  replace (flat_map
             (fun p =>
                flat_map
                  (fun t => match Pipeline.token_confidence t with
                            | Some c => [c]
                            | None => []
                            end)
                  match engine (preprocess p) lang with
                  | Some tokens => filter Pipeline.nonempty tokens
                  | None => []
                  end) pages)
    with (flat_map
            (fun p =>
               Pipeline.reported
                 match engine (preprocess p) lang with
                 | Some tokens => filter Pipeline.nonempty tokens
                 | None => []
                 end) pages)
    by (apply flat_map_ext; intros p; apply reported_flat_map).
  split; [ apply recognized_tokens | ].
  split.
  { intros p t. destruct (engine (preprocess p) lang) as [tokens | ].
    - rewrite filter_In. unfold Pipeline.nonempty.
      rewrite negb_true_iff, String.eqb_neq. split.
      + intros [Hin Hne]. exists tokens. auto.
      + intros (tokens' & E & Hin & Hne). inversion E; subst. auto.
    - split; [ intros [] | intros (tokens & E & _); discriminate ]. }
  split; [ reflexivity | ].
  split; [ reflexivity | ].
  split.
  { intros c. rewrite in_flat_map. split.
    - intros (p & Hp & Hc). apply In_reported in Hc as (t & Ht & Hc). eauto.
    - intros (p & t & Hp & Ht & Hc). exists p. split; [ exact Hp | ].
      apply In_reported. eauto. }
  split.
  - intros ->. reflexivity.
  - intros Hne. destruct (flat_map _ pages) as [ | c scores ] eqn:E; [ congruence | ].
    split.
    + eexists. reflexivity.
    + apply round1_nearest.
Qed.

(** On the three-page document the tokens that count are those of 96, 91.5 and
    88 per cent (the one of 12 per cent has no text, "N0." reports nothing),
    and the confidence is the number of tenths next to their mean, 91.8. *)
Lemma token_aggregation_witness :
  let r := Pipeline.aggregate
             (Pipeline.recognize_pages Samples.as_is Samples.flaky_engine
                Samples.three_pages "eng") "scan.pdf" "eng" in
  (exists tenths : Z, Pipeline.confidence r = tenths # 10) /\
  (- (1 # 20)
   <= Pipeline.confidence r - (96 + (91.5 + (88 + 0))) / inject_Z (Z.of_nat 3)
   <= 1 # 20)%Q.
Proof.
  cbv zeta.
  apply (proj2 (proj2 (proj2 (proj2 (proj2 (proj2
           (token_aggregation nat Samples.as_is Samples.flaky_engine
              Samples.three_pages "scan.pdf" "eng"))))))).
  simpl. discriminate.
Defined.

Lemma forallb_failed_recognized (PageImage : Type)
    (preprocess : PageImage -> PageImage)
    (engine : PageImage -> string -> option (list Pipeline.WordToken))
    (pages : list PageImage) (lang : string) :
  forallb Pipeline.failed (Pipeline.recognize_pages preprocess engine pages lang) = true <->
  (forall p, In p pages -> engine (preprocess p) lang = None).
Proof.
  unfold Pipeline.recognize_pages. rewrite forallb_forall. split.
  - intros H p Hp. specialize (H _ (in_map _ _ _ Hp)).
    unfold Pipeline.recognize in H.
    destruct (engine (preprocess p) lang); [ discriminate | reflexivity ].
  - intros H page Hpage. apply in_map_iff in Hpage as (p & <- & Hp).
    unfold Pipeline.recognize. rewrite (H p Hp). reflexivity.
Qed.

(** C6.  In a document of one or more pages, a page the engine fails on
    contributes the empty text and still counts as a page, the other pages
    contribute their own text whatever happened to it, a result is produced as
    soon as one page is recognised, and the request fails, with
    [RecognitionEngineError], exactly when every page fails. *)
Theorem page_failure_is_local (PageImage : Type)
    (preprocess : PageImage -> PageImage)
    (engine : PageImage -> string -> option (list Pipeline.WordToken))
    (pages : list PageImage) (filename lang : string) :
  pages <> [] ->
  let outcome := Pipeline.process_pages preprocess engine pages filename lang in
  let text_of := fun p =>
    match engine (preprocess p) lang with
    | Some tokens =>
        String.concat " " (map Pipeline.token_text (filter Pipeline.nonempty tokens))
    | None => ""
    end in
  (outcome = inl Pipeline.RecognitionEngineError <->
   forall p, In p pages -> engine (preprocess p) lang = None) /\
  (forall e, outcome = inl e -> e = Pipeline.RecognitionEngineError) /\
  ((exists p, In p pages /\ engine (preprocess p) lang <> None) ->
   exists r, outcome = inr r) /\
  (forall r, outcome = inr r ->
     Pipeline.page_count r = List.length pages /\
     Pipeline.text r = String.concat Pipeline.page_break (map text_of pages)).
Proof.
  intros Hne. cbv zeta. unfold Pipeline.process_pages.
  destruct pages as [ | p0 rest ] eqn:Epages; [ congruence | ]. rewrite <- Epages.
  pose proof (forallb_failed_recognized PageImage preprocess engine pages lang) as Hall.
  destruct (forallb Pipeline.failed (Pipeline.recognize_pages preprocess engine pages lang)).
  - split; [ | split; [ | split ] ].
    + split; [ intros _; apply Hall; reflexivity | reflexivity ].
    + intros e H. inversion H. reflexivity.
    + intros (p & Hp & Hok). exfalso. apply Hok. apply Hall; [ reflexivity | exact Hp ].
    + intros r H. discriminate H.
  - split; [ | split; [ | split ] ].
    + split; [ discriminate | ]. intros H. apply Hall in H. discriminate H.
    + intros e H. discriminate H.
    + intros _. eexists. reflexivity.
    + intros r H. inversion H; subst r; clear H.
      unfold Pipeline.aggregate. cbn [Pipeline.page_count Pipeline.text]. split.
      * unfold Pipeline.recognize_pages. apply length_map.
      * rewrite recognized_texts. f_equal. apply map_ext. intros p.
        destruct (engine (preprocess p) lang); reflexivity.
Qed.

(** The three-page document whose second page times out: three pages are
    counted, the first and the third give their text, the second gives none. *)
Lemma page_failure_is_local_witness :
  exists r,
    Pipeline.process_pages Samples.as_is Samples.flaky_engine
      Samples.three_pages "scan.pdf" "eng" = inr r /\
    Pipeline.page_count r = 3%nat /\
    Pipeline.text r
    = "Invoice N0. 42" ++ Pipeline.page_break ++ "" ++ Pipeline.page_break ++ "Total".
Proof.
  destruct (page_failure_is_local nat Samples.as_is Samples.flaky_engine
              Samples.three_pages "scan.pdf" "eng")
    as (_ & _ & Hsome & Hresult).
  - discriminate.
  - destruct Hsome as [r Hr].
    + exists 0%nat. split; [ left; reflexivity | discriminate ].
    + exists r. split; [ exact Hr | ]. apply (Hresult r Hr).
Defined.

(** * Further properties of the client *)

From Stdlib Require Import DecimalZ.

(** ** What App shows *)

Lemma App_views (st : App.State) :
  (App.renders_upload_area st = true /\
   App.renders_spinner st = false /\ App.renders_results st = false) \/
  (App.renders_upload_area st = false /\
   App.renders_spinner st = true /\ App.renders_results st = false) \/
  (App.renders_upload_area st = false /\
   App.renders_spinner st = false /\ App.renders_results st = true).
Proof.
  unfold App.renders_upload_area, App.renders_spinner, App.renders_results.
  destruct (App.result st), (App.isProcessing st); simpl; tauto.
Qed.

(** X1.  In every state [App] shows exactly one of its three main views: the
    upload area, the spinner, or the results. *)
Theorem App_shows_one_view (st : App.State) :
  (App.renders_upload_area st = true /\
   App.renders_spinner st = false /\ App.renders_results st = false) \/
  (App.renders_upload_area st = false /\
   App.renders_spinner st = true /\ App.renders_results st = false) \/
  (App.renders_upload_area st = false /\
   App.renders_spinner st = false /\ App.renders_results st = true).
Proof.
  unfold App.renders_upload_area, App.renders_spinner, App.renders_results.
  destruct (App.result st), (App.isProcessing st); simpl; tauto.
Qed.

(** X2.  [UploadArea] is rendered only with [isProcessing] false: whenever it
    is on the page its dropzone is enabled, and the "Extract Text" button is
    rendered exactly when the clear button is, that is, when a file is
    selected. *)
Theorem upload_area_never_sees_processing (st : App.State) (u : UploadArea.State) :
  App.renders_upload_area st = true ->
  App.isProcessing st = false /\
  UploadArea.disabled (App.isProcessing st) = false /\
  UploadArea.extract_button_rendered u (App.isProcessing st)
  = UploadArea.clear_button_rendered u.
Proof.
  unfold App.renders_upload_area, UploadArea.disabled,
    UploadArea.extract_button_rendered, UploadArea.clear_button_rendered.
  destruct (App.result st); [ discriminate | ].
  destruct (App.isProcessing st); [ discriminate | ].
  intros _. destruct (UploadArea.selectedFile u); auto.
Qed.

Lemma upload_area_never_sees_processing_witness :
  UploadArea.extract_button_rendered
    (fst (UploadArea.onDrop [Samples.report_pdf] UploadArea.initial))
    (App.isProcessing App.initial) = true.
Proof.
  rewrite (proj2 (proj2 (upload_area_never_sees_processing App.initial
             (fst (UploadArea.onDrop [Samples.report_pdf] UploadArea.initial))
             eq_refl))).
  reflexivity.
Defined.

(** On the page, an error is only there when nothing is processed and no
    result is held. *)
Lemma error_needs_idle (events : list Page.Event) (s : Page.State) :
  Page.run events Page.initial = Some s ->
  App.renders_error (Page.app s) = true ->
  App.result (Page.app s) = None /\ App.isProcessing (Page.app s) = false.
Proof.
  intros Hrun Herr.
  destruct (run_invariant events Page.initial s initial_invariant Hrun)
    as [Hbusy _ Hexcl _].
  unfold App.renders_error in Herr.
  destruct (App.error (Page.app s)) as [msg | ] eqn:E; [ | discriminate ].
  destruct Hexcl as [Hres | Hnone]; [ | discriminate ].
  split; [ exact Hres | ].
  destruct (App.isProcessing (Page.app s)) eqn:Hp; [ | reflexivity ].
  destruct (Hbusy eq_refl) as (_ & He & _). discriminate.
Qed.

(** X3.  On the page the error banner is shown only beside the upload area:
    never over the spinner and never over the results. *)
Theorem error_banner_beside_upload_area (events : list Page.Event) (s : Page.State) :
  Page.run events Page.initial = Some s ->
  App.renders_error (Page.app s) = true ->
  App.renders_upload_area (Page.app s) = true /\
  App.renders_spinner (Page.app s) = false /\
  App.renders_results (Page.app s) = false.
Proof.
  intros Hrun Herr.
  destruct (error_needs_idle events s Hrun Herr) as [Hres Hidle].
  unfold App.renders_upload_area, App.renders_spinner, App.renders_results.
  rewrite Hres, Hidle. auto.
Qed.

Lemma error_banner_beside_upload_area_witness :
  exists s,
    Page.run [Page.Drop [Samples.report_pdf]; Page.ClickExtract;
              Page.RequestEnds Samples.network_failure] Page.initial = Some s /\
    App.error (Page.app s) = Some "Network Error" /\
    App.renders_upload_area (Page.app s) = true.
Proof.
  eexists. split; [ reflexivity | ]. split; [ reflexivity | ].
  apply (error_banner_beside_upload_area
           [Page.Drop [Samples.report_pdf]; Page.ClickExtract;
            Page.RequestEnds Samples.network_failure]);
    reflexivity.
Defined.

(** ** How a request ends *)

Lemma or_truthy (a : option string) (fallback : string) :
  fallback <> "" -> JS.truthy (JS.or a (Some fallback)) = true.
Proof.
  intros Hne. unfold JS.or. destruct (JS.truthy a) eqn:E; [ exact E | ].
  simpl. apply negb_true_iff, String.eqb_neq. exact Hne.
Qed.

(** X4.  What [handleFileSelect] leaves behind depends on the response alone,
    not on what was shown before.  A response that reports success leaves its
    data as the result and no error; every other ending (a refusal, a response
    without a body, a rejected request) leaves no result and an error message
    that is not empty, so the banner is shown. *)
Theorem handleFileSelect_outcome (o : App.Outcome) (st : App.State) :
  let st' := App.handleFileSelect o st in
  (forall other : App.State, App.handleFileSelect o other = st') /\
  App.isProcessing st' = false /\
  (forall body,
     o = App.Fulfilled (Some body) -> App.success body = true ->
     App.result st' = App.data body /\ App.error st' = None) /\
  ((forall body, o = App.Fulfilled (Some body) -> App.success body = false) ->
   App.result st' = None /\ App.renders_error st' = true).
Proof.
  cbv zeta. unfold App.handleFileSelect, App.handleFileSelect_end,
    App.handleFileSelect_begin, App.catch_clause, App.renders_error.
  split; [ intros other; destruct o as [[body | ] | err]; simpl;
           [ destruct (App.success body) | | ]; reflexivity | ].
  split; [ reflexivity | ].
  split.
  - intros body -> Hok. rewrite Hok. simpl. auto.
  - intros Hfail. destruct o as [[body | ] | err]; simpl.
    + rewrite (Hfail body eq_refl). simpl. split; [ reflexivity | ].
      apply or_truthy. discriminate.
    + split; [ reflexivity | reflexivity ].
    + split; [ reflexivity | ]. apply or_truthy. discriminate.
Qed.

Lemma handleFileSelect_outcome_witness :
  App.result (App.handleFileSelect Samples.ok_response App.initial)
  = Some Samples.extracted /\
  App.renders_error (App.handleFileSelect Samples.network_failure App.initial) = true.
Proof.
  split.
  - apply (proj1 (proj2 (proj2 (handleFileSelect_outcome Samples.ok_response App.initial)))
             {| App.success := true; App.data := Some Samples.extracted;
                App.body_error := None |});
      reflexivity.
  - apply (proj2 (proj2 (proj2 (handleFileSelect_outcome Samples.network_failure
                                   App.initial)))).
    intros body H. discriminate H.
Defined.

(** ** Requests on the page *)

Lemma fire_keeps_suffix (e : Page.Event) (s s' : Page.State) :
  (exists done, Page.sent s = (done ++ Page.awaited s)%list) ->
  Page.fire e s = Some s' ->
  exists done, Page.sent s' = (done ++ Page.awaited s')%list.
Proof.
  intros [done Hs] H.
  destruct (fire_sent e s s' H)
    as [[Hne Hsame] | [-> (file & _ & _ & _ & Hsent & Haw & _)]].
  - destruct e; simpl in H; try congruence.
    + destruct (_ && _) in H; inversion H; subst; simpl. eauto.
    + destruct (App.renders_upload_area _) in H; inversion H; subst; simpl. eauto.
    + destruct (_ && _) in H; inversion H; subst; simpl. eauto.
    + destruct (Page.awaited s) as [ | file rest ] eqn:Haw; inversion H; subst; simpl.
      exists (done ++ [file])%list. rewrite Hs, <- app_assoc. reflexivity.
    + destruct (_ || _) in H; inversion H; subst; simpl. eauto.
  - exists done. rewrite Hsent, Haw, Hs. symmetry. apply app_assoc.
Qed.

Lemma run_keeps_suffix (events : list Page.Event) (s s' : Page.State) :
  (exists done, Page.sent s = (done ++ Page.awaited s)%list) ->
  Page.run events s = Some s' ->
  exists done, Page.sent s' = (done ++ Page.awaited s')%list.
Proof.
  revert s. induction events as [ | e events IH ]; simpl; intros s Hs H.
  - inversion H; subst. exact Hs.
  - destruct (Page.fire e s) as [s1 | ] eqn:Hfire; [ | discriminate ].
    apply (IH s1); [ | exact H ]. apply (fire_keeps_suffix e s); assumption.
Qed.

(** X5.  At most one request is awaited at a time.  None is awaited while the
    spinner is off; while it is on, exactly one is, it carries a file and it
    is the last one sent; and however that request ends, its ending is taken
    and turns the spinner off. *)
Theorem one_request_at_a_time (events : list Page.Event) (s : Page.State) :
  Page.run events Page.initial = Some s ->
  (App.isProcessing (Page.app s) = false -> Page.awaited s = []) /\
  (App.isProcessing (Page.app s) = true ->
   exists done file,
     Page.awaited s = [Some file] /\ Page.sent s = (done ++ [Some file])%list) /\
  (App.isProcessing (Page.app s) = true ->
   forall o, exists s',
     Page.fire (Page.RequestEnds o) s = Some s' /\
     App.isProcessing (Page.app s') = false /\ Page.awaited s' = []).
Proof.
  intros Hrun.
  pose proof (run_invariant events Page.initial s initial_invariant Hrun)
    as [Hbusy Hidle _ Hsent].
  assert (Hsuffix : exists done, Page.sent s = (done ++ Page.awaited s)%list).
  { apply (run_keeps_suffix events Page.initial); [ exists []; reflexivity | exact Hrun ]. }
  split; [ exact Hidle | ]. split.
  - intros Hp. destruct (Hbusy Hp) as (_ & _ & file & Haw).
    destruct Hsuffix as [done Hs]. rewrite Haw in Hs.
    destruct file as [file | ].
    + exists done, file. auto.
    + exfalso. rewrite Hs in Hsent. apply Forall_app in Hsent as [_ Hlast].
      inversion Hlast; subst. congruence.
  - intros Hp o. destruct (Hbusy Hp) as (_ & _ & file & Haw).
    simpl. rewrite Haw. eexists. split; [ reflexivity | ].
    split; reflexivity.
Qed.

Lemma one_request_at_a_time_witness :
  exists s,
    Page.run [Page.Drop [Samples.scan_png]; Page.ClickExtract] Page.initial = Some s /\
    exists done file,
      Page.awaited s = [Some file] /\ Page.sent s = (done ++ [Some file])%list.
Proof.
  eexists. split; [ reflexivity | ].
  apply (proj1 (proj2 (one_request_at_a_time
                         [Page.Drop [Samples.scan_png]; Page.ClickExtract] _ eq_refl))).
  reflexivity.
Defined.

Lemma run_counts_clicks (events : list Page.Event) (s s' : Page.State) :
  Page.run events s = Some s' ->
  List.length (Page.sent s')
  = (List.length (Page.sent s) + List.length (filter is_extract_click events))%nat.
Proof.
  revert s. induction events as [ | e events IH ]; simpl; intros s H.
  - inversion H; subst. lia.
  - destruct (Page.fire e s) as [s1 | ] eqn:Hfire; [ | discriminate ].
    rewrite (IH s1 H).
    destruct (fire_sent e s s1 Hfire) as [[Hne ->] | [-> (file & _ & _ & _ & -> & _)]].
    + destruct e; simpl; try lia. congruence.
    + simpl. rewrite length_app. simpl. lia.
Qed.

(** X6.  Every click on "Extract Text" that the page takes sends exactly one
    request, and nothing else sends one: the requests sent are as many as the
    clicks. *)
Theorem one_request_per_click (events : list Page.Event) (s : Page.State) :
  Page.run events Page.initial = Some s ->
  List.length (Page.sent s) = List.length (filter is_extract_click events).
Proof.
  intros H. rewrite (run_counts_clicks events Page.initial s H). reflexivity.
Qed.

Lemma one_request_per_click_witness :
  exists s,
    Page.run [Page.Drop [Samples.report_pdf]; Page.ClickExtract;
              Page.RequestEnds Samples.refused_response;
              Page.Drop [Samples.scan_png]; Page.ClickExtract] Page.initial = Some s /\
    List.length (Page.sent s) = 2%nat.
Proof.
  eexists. split; [ reflexivity | ].
  apply (one_request_per_click
           [Page.Drop [Samples.report_pdf]; Page.ClickExtract;
            Page.RequestEnds Samples.refused_response;
            Page.Drop [Samples.scan_png]; Page.ClickExtract]).
  reflexivity.
Defined.

(** X7.  A click on a reset button brings [App] back to its initial state, so
    the upload area is shown again.  Coming from the results the upload area
    starts afresh with no file selected; coming from an error it keeps its
    selection.  No request is sent or left awaited. *)
Theorem reset_starts_over (events : list Page.Event) (s s' : Page.State) :
  Page.run events Page.initial = Some s ->
  Page.fire Page.ClickReset s = Some s' ->
  Page.app s' = App.initial /\
  App.renders_upload_area (Page.app s') = true /\
  (App.renders_results (Page.app s) = true -> Page.upload s' = UploadArea.initial) /\
  (App.renders_error (Page.app s) = true -> Page.upload s' = Page.upload s) /\
  Page.sent s' = Page.sent s /\ Page.awaited s' = [].
Proof.
  intros Hrun Hfire.
  pose proof (run_invariant events Page.initial s initial_invariant Hrun)
    as [Hbusy Hidle _ _].
  pose proof (error_needs_idle events s Hrun) as Hbanner.
  simpl in Hfire.
  destruct (App.renders_error (Page.app s)) eqn:Herr; simpl in Hfire.
  - destruct (Hbanner eq_refl) as (Hres & Hoff).
    inversion Hfire; subst s'; clear Hfire. simpl.
    unfold Page.remount, App.renders_upload_area. rewrite Hres, Hoff. simpl.
    unfold App.handleReset, App.setError, App.setResult. simpl. rewrite Hoff.
    unfold App.renders_results. rewrite Hres.
    repeat split; auto. discriminate.
  - destruct (App.renders_results (Page.app s)) eqn:Hres; [ | discriminate ].
    inversion Hfire; subst s'; clear Hfire. simpl.
    unfold App.renders_results in Hres.
    destruct (App.result (Page.app s)) eqn:Hr; [ | discriminate ].
    apply negb_true_iff in Hres.
    unfold Page.remount, App.renders_upload_area. rewrite Hr. simpl.
    unfold App.handleReset, App.setError, App.setResult. simpl. rewrite Hres.
    repeat split; auto. discriminate.
Qed.

Lemma reset_starts_over_witness :
  exists s s',
    Page.run [Page.Drop [Samples.report_pdf]; Page.ClickExtract;
              Page.RequestEnds Samples.ok_response] Page.initial = Some s /\
    Page.fire Page.ClickReset s = Some s' /\
    Page.app s' = App.initial.
Proof.
  eexists. eexists. split; [ reflexivity | ]. split; [ reflexivity | ].
  apply (reset_starts_over
           [Page.Drop [Samples.report_pdf]; Page.ClickExtract;
            Page.RequestEnds Samples.ok_response] _ _ eq_refl eq_refl).
Defined.

(** ** Selecting a file *)

(** X8.  The file [handleUpload] passes on is the first file of the latest
    drop, whatever was selected before and whatever else was dropped with it;
    a drop of no file changes nothing; and after [handleClear] nothing is
    passed on and the button is gone. *)
Theorem upload_follows_latest_drop :
  (forall st : UploadArea.State, UploadArea.onDrop [] st = (st, None)) /\
  (forall (file : UploadArea.File) (others : list UploadArea.File)
          (st : UploadArea.State),
     let st' := fst (UploadArea.onDrop (file :: others) st) in
     UploadArea.selectedFile st' = Some file /\
     UploadArea.handleUpload st' = [Some file] /\
     UploadArea.extract_button_rendered st' false = true) /\
  (forall (files : list UploadArea.File) (st : UploadArea.State),
     let st' := UploadArea.handleClear (fst (UploadArea.onDrop files st)) in
     st' = UploadArea.initial /\
     UploadArea.handleUpload st' = [] /\
     forall isProcessing, UploadArea.extract_button_rendered st' isProcessing = false).
Proof.
  split; [ reflexivity | ]. split.
  - intros file others st. cbv zeta. unfold UploadArea.onDrop.
    destruct (JS.startsWith "image/" (UploadArea.type file)); simpl; auto.
  - intros files st. cbv zeta. auto.
Qed.

Section Reader.

(** What [reader.readAsDataURL(file)] hands to [onload]. *)
Variable readAsDataURL : UploadArea.File -> string.

(** X9.  The preview is set by whichever read finishes, not by the file that
    is selected.  When an image is dropped and then, before its read has
    finished, a file that is not an image, the late read puts the image's
    preview beside the other file's selection, and it is the other file that
    is uploaded.  When the read finishes before anything else is dropped, the
    preview is that of the selected image. *)
Theorem late_read_overwrites_preview
    (image other : UploadArea.File) (more more' : list UploadArea.File)
    (st : UploadArea.State) :
  JS.startsWith "image/" (UploadArea.type image) = true ->
  JS.startsWith "image/" (UploadArea.type other) = false ->
  let first := UploadArea.onDrop (image :: more) st in
  let second := UploadArea.onDrop (other :: more') (fst first) in
  let late := UploadArea.reader_onload (readAsDataURL image) (fst second) in
  let prompt := UploadArea.reader_onload (readAsDataURL image) (fst first) in
  snd first = Some image /\
  snd second = None /\ UploadArea.preview (fst second) = None /\
  UploadArea.preview late = Some (readAsDataURL image) /\
  UploadArea.selectedFile late = Some other /\
  UploadArea.handleUpload late = [Some other] /\
  UploadArea.preview prompt = Some (readAsDataURL image) /\
  UploadArea.selectedFile prompt = Some image.
Proof.
  intros Himage Hother. cbv zeta. unfold UploadArea.onDrop.
  rewrite Himage. cbn [fst snd]. rewrite Hother. cbn.
  repeat split; reflexivity.
Qed.

End Reader.

Lemma late_read_overwrites_preview_witness :
  let url (f : UploadArea.File) := "data:" ++ UploadArea.type f ++ ";base64," in
  let first := UploadArea.onDrop [Samples.scan_png] UploadArea.initial in
  let second := UploadArea.onDrop [Samples.report_pdf] (fst first) in
  let late := UploadArea.reader_onload (url Samples.scan_png) (fst second) in
  UploadArea.preview late = Some "data:image/png;base64," /\
  UploadArea.selectedFile late = Some Samples.report_pdf.
Proof.
  cbv zeta.
  destruct (late_read_overwrites_preview
              (fun f => "data:" ++ UploadArea.type f ++ ";base64,")
              Samples.scan_png Samples.report_pdf [] [] UploadArea.initial
              eq_refl eq_refl)
    as (_ & _ & _ & Hpreview & Hselected & _).
  split; [ exact Hpreview | exact Hselected ].
Defined.

(** ** Download names *)

Lemma toString_inj (a b : Z) : JS.toString a = JS.toString b -> a = b.
Proof.
  unfold JS.toString. intros H.
  apply DecimalZ.to_int_inj.
  pose proof (NilEmpty.isi (Z.to_int a)) as Ha.
  pose proof (NilEmpty.isi (Z.to_int b)) as Hb.
  rewrite H in Ha. rewrite Ha in Hb. inversion Hb. reflexivity.
Qed.

Lemma append_inj_l (p a b : string) : p ++ a = p ++ b -> a = b.
Proof.
  induction p as [ | c p IH ]; simpl; intros H.
  - exact H.
  - inversion H. auto.
Qed.

Lemma append_inj_r (a b t : string) : a ++ t = b ++ t -> a = b.
Proof.
  revert b. induction a as [ | c a IH ]; intros [ | c' b ] H.
  - reflexivity.
  - exfalso. apply (f_equal String.length) in H.
    simpl in H. rewrite string_length_append in H. lia.
  - exfalso. apply (f_equal String.length) in H.
    simpl in H. rewrite string_length_append in H. lia.
  - simpl in H. inversion H. f_equal. apply IH. assumption.
Qed.

(** X10.  Two downloads get the same file name exactly when they are started
    at the same clock reading, whatever the results are; and the blob
    downloaded holds the text of the result. *)
Theorem download_names_follow_the_clock
    (result result' : ResultsPanel.Result) (now now' : Z) :
  (ResultsPanel.download (ResultsPanel.handleDownload result now)
   = ResultsPanel.download (ResultsPanel.handleDownload result' now')
   <-> now = now') /\
  ResultsPanel.blob (ResultsPanel.handleDownload result now) = ResultsPanel.text result.
Proof.
  split; [ | reflexivity ].
  unfold ResultsPanel.handleDownload. cbn [ResultsPanel.download]. split.
  - intros H. apply append_inj_l, append_inj_r in H. apply toString_inj. exact H.
  - intros ->. reflexivity.
Qed.

(** ** The copy button *)

Lemma copy_fire_invariant (result : ResultsPanel.Result)
    (e : CopyButton.Event) (st st' : CopyButton.State) :
  (CopyButton.copied st = true -> 0 < CopyButton.timers st)%nat ->
  (CopyButton.clipboard st = None \/
   CopyButton.clipboard st = Some (ResultsPanel.text result)) ->
  (CopyButton.copied st = true ->
   CopyButton.clipboard st = Some (ResultsPanel.text result)) ->
  CopyButton.fire result e st = Some st' ->
  ((CopyButton.copied st' = true -> 0 < CopyButton.timers st')%nat /\
   (CopyButton.clipboard st' = None \/
    CopyButton.clipboard st' = Some (ResultsPanel.text result)) /\
   (CopyButton.copied st' = true ->
    CopyButton.clipboard st' = Some (ResultsPanel.text result))).
Proof.
  intros Htimer Hclip Hcopied H. destruct e as [[ | ] | ]; simpl in H.
  - inversion H; subst; simpl. repeat split; auto; lia.
  - inversion H; subst. auto.
  - unfold CopyButton.timer_fires in H.
    destruct (CopyButton.timers st); inversion H; subst; simpl.
    repeat split; auto; discriminate.
Qed.

(** X11.  "Copied!" is shown only while a timer is still due to clear it, and
    only after the text of the result has been put on the clipboard: once
    every timer has fired the button reads "Copy" again.  A write that fails
    changes nothing, and nothing but the text of the result is ever written. *)
Theorem copied_badge_is_cleared (result : ResultsPanel.Result)
    (events : list CopyButton.Event) (st : CopyButton.State) :
  CopyButton.run result events CopyButton.initial = Some st ->
  (CopyButton.copied st = true -> (0 < CopyButton.timers st)%nat) /\
  (CopyButton.timers st = 0%nat -> CopyButton.copied st = false) /\
  (CopyButton.copied st = true ->
   CopyButton.clipboard st = Some (ResultsPanel.text result)) /\
  (CopyButton.clipboard st = None \/
   CopyButton.clipboard st = Some (ResultsPanel.text result)) /\
  CopyButton.handleCopy result false st = st.
Proof.
  intros Hrun.
  assert (Hinv :
    (CopyButton.copied st = true -> 0 < CopyButton.timers st)%nat /\
    (CopyButton.clipboard st = None \/
     CopyButton.clipboard st = Some (ResultsPanel.text result)) /\
    (CopyButton.copied st = true ->
     CopyButton.clipboard st = Some (ResultsPanel.text result))).
  { revert Hrun.
    assert (Hinit :
      (CopyButton.copied CopyButton.initial = true ->
       0 < CopyButton.timers CopyButton.initial)%nat /\
      (CopyButton.clipboard CopyButton.initial = None \/
       CopyButton.clipboard CopyButton.initial = Some (ResultsPanel.text result)) /\
      (CopyButton.copied CopyButton.initial = true ->
       CopyButton.clipboard CopyButton.initial = Some (ResultsPanel.text result)))
      by (simpl; repeat split; auto; discriminate).
    revert Hinit. generalize CopyButton.initial as st0.
    induction events as [ | e events IH ]; simpl; intros st0 Hinit Hrun.
    - inversion Hrun; subst. exact Hinit.
    - destruct (CopyButton.fire result e st0) as [st1 | ] eqn:Hfire; [ | discriminate ].
      apply (IH st1); [ | exact Hrun ].
      destruct Hinit as (H1 & H2 & H3).
      apply (copy_fire_invariant result e st0 st1 H1 H2 H3 Hfire). }
  destruct Hinv as (Htimer & Hclip & Hcopied).
  repeat split; auto.
  intros Hzero. destruct (CopyButton.copied st) eqn:E; [ | reflexivity ].
  specialize (Htimer eq_refl). lia.
Qed.

Lemma copied_badge_is_cleared_witness :
  exists st,
    CopyButton.run Samples.extracted
      [CopyButton.ClickCopy true; CopyButton.ClickCopy false;
       CopyButton.ClickCopy true; CopyButton.TimerFires; CopyButton.TimerFires]
      CopyButton.initial = Some st /\
    CopyButton.timers st = 0%nat /\
    CopyButton.copied st = false.
Proof.
  eexists. split; [ reflexivity | ]. split; [ reflexivity | ].
  apply (proj1 (proj2 (copied_badge_is_cleared Samples.extracted
           [CopyButton.ClickCopy true; CopyButton.ClickCopy false;
            CopyButton.ClickCopy true; CopyButton.TimerFires; CopyButton.TimerFires]
           _ eq_refl))).
  reflexivity.
Defined.

(** ** What the upload controls do while there is no upload area *)

(** X12.  While the spinner or the results are shown, the page takes no drop
    of a file, no click on a clear button and no click on "Extract Text", so
    no request can be started from either view; and while the spinner is
    shown a reset button cannot be clicked either. *)
Theorem no_upload_without_upload_area (events : list Page.Event) (s : Page.State) :
  Page.run events Page.initial = Some s ->
  (App.renders_spinner (Page.app s) = true \/ App.renders_results (Page.app s) = true ->
   (forall acceptedFiles, Page.fire (Page.Drop acceptedFiles) s = None) /\
   Page.fire Page.ClickClear s = None /\
   Page.fire Page.ClickExtract s = None) /\
  (App.renders_spinner (Page.app s) = true -> Page.fire Page.ClickReset s = None).
Proof.
  intros Hrun.
  pose proof (run_invariant events Page.initial s initial_invariant Hrun)
    as [Hbusy _ _ _].
  split.
  - intros Hview.
    assert (Hup : App.renders_upload_area (Page.app s) = false).
    { destruct (App_views (Page.app s)) as [(_ & H1 & H2) | [(H & _) | (H & _)]];
        [ | exact H | exact H ].
      destruct Hview; congruence. }
    simpl. rewrite Hup. simpl. auto.
  - unfold App.renders_spinner. intros Hp.
    destruct (Hbusy Hp) as (Hres & Herr & _). simpl.
    unfold App.renders_error, App.renders_results. rewrite Hres, Herr.
    reflexivity.
Qed.

Lemma no_upload_without_upload_area_witness :
  exists s,
    Page.run [Page.Drop [Samples.scan_png]; Page.ClickExtract;
              Page.RequestEnds Samples.ok_response] Page.initial = Some s /\
    Page.fire (Page.Drop [Samples.report_pdf]) s = None /\
    Page.fire Page.ClickExtract s = None.
Proof.
  eexists. split; [ reflexivity | ].
  destruct (proj1 (no_upload_without_upload_area
                     [Page.Drop [Samples.scan_png]; Page.ClickExtract;
                      Page.RequestEnds Samples.ok_response] _ eq_refl))
    as (Hdrop & _ & Hclick).
  - right. reflexivity.
  - split; [ apply Hdrop | exact Hclick ].
Defined.

(** X13.  The selection does not outlive a request: once a request has ended,
    with a result or with an error, the upload area holds no file, and
    "Extract Text" cannot be clicked until a file is dropped again. *)
Theorem retry_needs_new_drop (events : list Page.Event) (s s' : Page.State)
    (o : App.Outcome) :
  Page.run events Page.initial = Some s ->
  Page.fire (Page.RequestEnds o) s = Some s' ->
  Page.upload s' = UploadArea.initial /\
  Page.fire Page.ClickExtract s' = None.
Proof.
  intros Hrun Hfire.
  pose proof (run_invariant events Page.initial s initial_invariant Hrun)
    as [_ Hidle _ _].
  simpl in Hfire.
  destruct (Page.awaited s) as [ | file rest ] eqn:Haw; [ discriminate | ].
  assert (Hp : App.isProcessing (Page.app s) = true).
  { destruct (App.isProcessing (Page.app s)); [ reflexivity | ].
    specialize (Hidle eq_refl). discriminate. }
  assert (Hup : Page.upload s' = UploadArea.initial).
  { inversion Hfire; subst s'. cbn [Page.upload].
    unfold Page.remount, App.renders_upload_area at 1. rewrite Hp.
    destruct (App.result (Page.app s)); reflexivity. }
  split; [ exact Hup | ].
  simpl. rewrite Hup. simpl. rewrite andb_false_r. reflexivity.
Qed.

Lemma retry_needs_new_drop_witness :
  exists s s',
    Page.run [Page.Drop [Samples.report_pdf]; Page.ClickExtract] Page.initial = Some s /\
    Page.fire (Page.RequestEnds Samples.refused_response) s = Some s' /\
    Page.fire Page.ClickExtract s' = None.
Proof.
  eexists. eexists. split; [ reflexivity | ]. split; [ reflexivity | ].
  apply (retry_needs_new_drop
           [Page.Drop [Samples.report_pdf]; Page.ClickExtract] _ _
           Samples.refused_response eq_refl eq_refl).
Defined.
